(** * Market scanner ([app.py]): a shallow embedding and its properties

    The scanner takes a list of tickers and three integer weights, and for
    every ticker collects headlines, scores their sentiment, scores the
    fundamentals and the price trend, blends the three scores and classifies
    the blend.

    Python values are embedded as follows.
    - [str] is [string]; the texts are taken to be ASCII, on which
      [str.lower] maps the capitals [A]..[Z] and nothing else.  The ticker
      typed by the user is any text, and [str.upper] on it is a parameter.
    - [int] is [Z].
    - [float] is IEEE 754 binary64, which is exactly the primitive type
      [float] of the prover: [+], [*], [/] and the comparisons below are the
      machine operations the interpreter performs.  The rolling mean of the
      table library is embedded with its running, compensated sum.
    - an exception is a value [Raise e] of [outcome]; the providers (the HTTP
      client, the HTML parser, the market-data library) are a record of
      functions over an abstract world state that may answer [Raise]. *)

From Stdlib Require Import ZArith List String Ascii Bool Lia Permutation.
From Stdlib Require Import Floats Uint63 DecimalString QArith.
Import ListNotations.

Local Open Scope string_scope.
Local Open Scope Z_scope.

(* ================================================================= *)
(** ** Strings *)

(** [str.lower] on one ASCII character. *)
Definition lower_ascii (c : ascii) : ascii :=
  let n := nat_of_ascii c in
  if andb (Nat.leb 65 n) (Nat.leb n 90) then ascii_of_nat (n + 32) else c.

(** [text.lower()]. *)
Fixpoint lower (s : string) : string :=
  match s with
  | EmptyString => EmptyString
  | String c s' => String (lower_ascii c) (lower s')
  end.

(** [word in text]: [word] is a contiguous part of [text]. *)
Fixpoint contains (word text : string) : bool :=
  match text with
  | EmptyString => prefix word EmptyString
  | String _ rest => prefix word text || contains word rest
  end.

(** What [contains] decides. *)
Definition occurs_in (word text : string) : Prop :=
  exists before after, text = before ++ word ++ after.

(** [sum(xs)] over integers, and over the booleans of a generator
    ([True] counts 1, [False] counts 0). *)
Definition py_sum (xs : list Z) : Z := fold_left Z.add xs 0.

Definition py_sum_bool (bs : list bool) : Z := py_sum (map Z.b2z bs).

(** [str(n)] for an integer. *)
Definition str_int (n : Z) : string := NilEmpty.string_of_int (Z.to_int n).

(** [", ".join(parts)]. *)
Fixpoint join (sep : string) (parts : list string) : string :=
  match parts with
  | [] => ""
  | [p] => p
  | p :: rest => p ++ sep ++ join sep rest
  end.

(* ================================================================= *)
(** ** Sentiment scorer (lines 76-83) *)

Definition positive_words : list string :=
  ["beats"; "soars"; "growth"; "jump"; "rises"; "strong"; "profit"].

Definition negative_words : list string :=
  ["falls"; "misses"; "drop"; "weak"; "loss"; "cuts"; "bad"].

Definition sentiment_score (text : string) : Z :=
  let text := lower text in
  let pos := py_sum_bool (map (fun word => contains word text) positive_words) in
  let neg := py_sum_bool (map (fun word => contains word text) negative_words) in
  pos - neg.

(** The spec's words: the number of terms of a set that the text contains. *)
Definition terms_contained (terms : list string) (text : string) : Z :=
  Z.of_nat (List.length (filter (fun word => contains word text) terms)).

(* ================================================================= *)
(** ** Numbers *)

(** The conversion of an [int] to a [float] that [n * x] and [a / b] perform.
    It is exact below [2^53] and rounds to nearest below [2^63]; the scores
    and weights of the scanner are below [2^8]. *)
Definition float_of_int (n : Z) : float :=
  if n <? 0 then (- of_uint63 (Uint63.of_Z (- n)))%float
  else of_uint63 (Uint63.of_Z n).

(** [a / b] on two integers (true division). *)
Definition truediv (a b : Z) : float := (float_of_int a / float_of_int b)%float.

(** [n * x], an integer times a float. *)
Definition int_mul_float (n : Z) (x : float) : float := (float_of_int n * x)%float.

(** [x >= n], a float against an integer constant: [False] on NaN. *)
Definition float_ge_int (x : float) (n : Z) : bool := (float_of_int n <=? x)%float.

(** [x < n], the other side of [x >= n]. *)
Definition float_lt_int (x : float) (n : Z) : bool := (x <? float_of_int n)%float.

(** [x > y] on floats: [False] when either side is NaN. *)
Definition float_gt (x y : float) : bool := (y <? x)%float.

(** The quotient [a / b] of two non-negative integers rounded to the nearest
    integer, a tie going to the even one. *)
Definition div_half_even (a b : Z) : Z :=
  let q := a / b in
  match (2 * (a mod b)) ?= b with
  | Lt => q
  | Gt => q + 1
  | Eq => if Z.even q then q else q + 1
  end.

(** [round(x, ndigits)] on a float, for [ndigits >= 0], as the interpreter
    computes it: the exact value of [x] is written with [ndigits] decimals,
    correctly rounded with a tie going to the even digit, and that decimal
    is read back as the nearest float.  Here [n] is the decimal scaled by
    [10 ^ ndigits] and the division rounds [n / 10 ^ ndigits] once.  Zeros,
    infinities and NaN are returned as they are. *)
Definition round_float (x : float) (ndigits : nat) : float :=
  match Prim2SF x with
  | S754_finite s m e =>
      let scale := 10 ^ Z.of_nat ndigits in
      let n := if 0 <=? e then Zpos m * 2 ^ e * scale
               else div_half_even (Zpos m * scale) (2 ^ (- e)) in
      match n with
      | Zpos p =>
          SF2Prim (SFdiv prec emax (S754_finite s p 0)
                                   (S754_finite false (Z.to_pos scale) 0))
      | _ => if s then neg_zero else zero
      end
  | _ => x
  end.

(** [round(n, ndigits)] on an integer, for [ndigits >= 0]: the integer. *)
Definition round_int (n : Z) (ndigits : nat) : Z := n.

(* ================================================================= *)
(** ** Classifier (lines 140-145) *)

Definition STRONG_BULLISH : string := "🔥 STRONG BULLISH".
Definition BULLISH : string := "🟢 BULLISH".
Definition NEUTRAL : string := "🟡 NEUTRAL".
Definition BEARISH : string := "🔻 BEARISH".
Definition STRONG_BEARISH : string := "🛑 STRONG BEARISH".

Definition classify (score : float) : string :=
  if float_ge_int score 60 then STRONG_BULLISH
  else if float_ge_int score 40 then BULLISH
  else if float_ge_int score 25 then NEUTRAL
  else if float_ge_int score 10 then BEARISH
  else STRONG_BEARISH.

Definition labels : list string :=
  [STRONG_BULLISH; BULLISH; NEUTRAL; BEARISH; STRONG_BEARISH].

(** The five bands of the threshold table, in the order of [labels]. *)
Definition bands (f : float) : list bool :=
  [ float_ge_int f 60;
    float_lt_int f 60 && float_ge_int f 40;
    float_lt_int f 40 && float_ge_int f 25;
    float_lt_int f 25 && float_ge_int f 10;
    float_lt_int f 10 ].

(** The name of a label: the text after its leading glyph and blank. *)
Fixpoint label_name (label : string) : string :=
  match label with
  | EmptyString => EmptyString
  | String c rest => if Ascii.eqb c " " then rest else label_name rest
  end.

(* ================================================================= *)
(** ** Exceptions and the world *)

Inductive exn : Type :=
| KeyError (key : string)
| IndexError
| ProviderError (what : string).

Inductive outcome (A : Type) : Type :=
| Ok (a : A)
| Raise (e : exn).
Arguments Ok {A} a.
Arguments Raise {A} e.

(** A computation that reads and changes the world and may raise. *)
Definition M (W A : Type) : Type := W -> outcome A * W.

Definition ret {W A} (a : A) : M W A := fun w => (Ok a, w).

Definition bind {W A B} (c : M W A) (k : A -> M W B) : M W B :=
  fun w => match c w with
           | (Ok a, w') => k a w'
           | (Raise e, w') => (Raise e, w')
           end.

(** A step that does not touch the world. *)
Definition lift {W A} (o : outcome A) : M W A := fun w => (o, w).

(** [try: body / except: return default], the bare [except] of the source:
    whatever [body] raises, the function returns [default]. *)
Definition try_except {W A} (body : M W A) (default : A) : M W A :=
  fun w => match body w with
           | (Ok a, w') => (Ok a, w')
           | (Raise _, w') => (Ok default, w')
           end.

Declare Scope scan_scope.
Delimit Scope scan_scope with scan.
Notation "x <- c ;; k" := (bind c (fun x => k))
  (at level 100, c at next level, right associativity) : scan_scope.

(* ================================================================= *)
(** ** The tables of the market-data library *)

Definition Series : Type := list float.

(** A table: row labels, column labels and the cell at a row and a column
    position.  The labels of an axis are distinct. *)
Record DataFrame : Type := {
  index : list string;
  columns : list string;
  cell : nat -> nat -> float
}.

(** [df.empty]: one of the axes has no label. *)
Definition empty (df : DataFrame) : bool :=
  (List.length (index df) =? 0)%nat || (List.length (columns df) =? 0)%nat.

Fixpoint position (label : string) (labels : list string) : option nat :=
  match labels with
  | [] => None
  | l :: rest => if String.eqb l label then Some O
                 else option_map S (position label rest)
  end.

(** [df.loc[label]]: the row of that label. *)
Definition loc (df : DataFrame) (label : string) : outcome Series :=
  match position label (index df) with
  | Some i => Ok (map (cell df i) (seq 0 (List.length (columns df))))
  | None => Raise (KeyError label)
  end.

(** [df[label]]: the column of that label. *)
Definition getitem (df : DataFrame) (label : string) : outcome Series :=
  match position label (columns df) with
  | Some j => Ok (map (fun i => cell df i j) (seq 0 (List.length (index df))))
  | None => Raise (KeyError label)
  end.

(** [s.iloc[i]] for [i >= 0], [s.iloc[-1]] and [s.iloc[:n]]. *)
Definition iloc (s : Series) (i : nat) : outcome float :=
  match nth_error s i with
  | Some x => Ok x
  | None => Raise IndexError
  end.

Definition iloc_last (s : Series) : outcome float :=
  match s with
  | [] => Raise IndexError
  | _ :: _ => Ok (last s nan)
  end.

Definition iloc_upto (n : nat) (s : Series) : Series := firstn n s.

(** [s.rolling(window).mean()], as the table library (pandas, from 1.5 on)
    computes it for a window of a fixed number of rows (its routines
    [_prep_values],
    [FixedWindowIndexer.get_window_bounds], [roll_mean], [add_mean],
    [remove_mean] and [calc_mean]).  The library does not sum each window
    anew: it keeps one running sum along the series, adding the row that
    enters the window and removing the rows that leave it, each with a
    compensation term (Kahan summation), and it returns the repeated value
    itself when the rows of the window are all equal. *)

(** An infinite entry counts as a missing one. *)
Definition prep_value (x : float) : float :=
  if is_infinity x then nan else x.

(** The window that ends at row [i] is [[window_start window i, S i)]. *)
Definition window_start (window i : nat) : nat := (S i - window)%nat.

Record mean_state : Type := {
  nobs : Z;
  sum_x : float;
  neg_ct : Z;
  compensation_add : float;
  compensation_remove : float;
  num_consecutive_same_value : Z;
  prev_value : float
}.

Definition setup_mean (first : float) : mean_state :=
  {| nobs := 0; sum_x := zero; neg_ct := 0;
     compensation_add := zero; compensation_remove := zero;
     num_consecutive_same_value := 0; prev_value := first |}.

(** A row enters the window; a missing one (NaN) is skipped. *)
Definition add_mean (st : mean_state) (val : float) : mean_state :=
  if (val =? val)%float then
    let y := (val - compensation_add st)%float in
    let t := (sum_x st + y)%float in
    {| nobs := nobs st + 1;
       sum_x := t;
       neg_ct := if get_sign val then neg_ct st + 1 else neg_ct st;
       compensation_add := (t - sum_x st - y)%float;
       compensation_remove := compensation_remove st;
       num_consecutive_same_value :=
         if (val =? prev_value st)%float
         then num_consecutive_same_value st + 1 else 1;
       prev_value := val |}
  else st.

(** A row leaves the window. *)
Definition remove_mean (st : mean_state) (val : float) : mean_state :=
  if (val =? val)%float then
    let y := (- val - compensation_remove st)%float in
    let t := (sum_x st + y)%float in
    {| nobs := nobs st - 1;
       sum_x := t;
       neg_ct := if get_sign val then neg_ct st - 1 else neg_ct st;
       compensation_add := compensation_add st;
       compensation_remove := (t - sum_x st - y)%float;
       num_consecutive_same_value := num_consecutive_same_value st;
       prev_value := prev_value st |}
  else st.

(** The mean of the window, missing until [minp] rows are observed. *)
Definition calc_mean (minp : Z) (st : mean_state) : float :=
  if (minp <=? nobs st) && (0 <? nobs st) then
    let result := (sum_x st / float_of_int (nobs st))%float in
    if nobs st <=? num_consecutive_same_value st then prev_value st
    else if (neg_ct st =? 0) && (result <? zero)%float then zero
    else if (neg_ct st =? nobs st) && (zero <? result)%float then zero
    else result
  else nan.

(** The rows [values[a], ..., values[a + n - 1]]. *)
Definition rows (values : list float) (a n : nat) : list float :=
  map (fun j => nth j values nan) (seq a n).

(** The rows of the window that ends at row [i]. *)
Definition window_rows (values : list float) (window i : nat) : list float :=
  let s := window_start window i in rows values s (S i - s).

(** One turn of the loop of [roll_mean], at row [i]: the state is set up
    at the first row (and when the window shares no row with the one
    before); otherwise the rows that left the window are removed and row
    [i] is added. *)
Definition roll_step (values : list float) (window : nat) (st : mean_state)
    (i : nat) : mean_state :=
  let s := window_start window i in
  if (i =? 0)%nat || (i <=? s)%nat then
    fold_left add_mean (window_rows values window i)
              (setup_mean (nth s values nan))
  else
    let s' := window_start window (i - 1) in
    add_mean (fold_left remove_mean (rows values s' (s - s')) st)
             (nth i values nan).

(** The state after the turn at row [i]. *)
Fixpoint state_at (values : list float) (window : nat) (i : nat) : mean_state :=
  match i with
  | O => roll_step values window (setup_mean zero) O
  | S i' => roll_step values window (state_at values window i') i
  end.

Fixpoint roll_mean_from (values : list float) (window : nat) (minp : Z)
    (st : mean_state) (turns : list nat) : list float :=
  match turns with
  | [] => []
  | i :: rest =>
      let st' := roll_step values window st i in
      calc_mean minp st' :: roll_mean_from values window minp st' rest
  end.

Definition roll_mean (values : list float) (window : nat) (minp : Z)
  : list float :=
  roll_mean_from values window minp (setup_mean zero)
                 (seq 0 (List.length values)).

(** [s.rolling(window).mean()]: [min_periods] is the size of the window. *)
Definition rolling_mean (window : nat) (s : Series) : Series :=
  roll_mean (map prep_value s) window (Z.of_nat window).

(** A row that is observed: not missing. *)
Definition observed (x : float) : bool := (x =? x)%float.

Definition count_obs (xs : list float) : Z :=
  Z.of_nat (List.length (filter observed xs)).

(* ================================================================= *)
(** ** The providers *)

(** An element of a parsed page: its tag name and its text. *)
Record Element : Type := { tag : string; text : string }.

(** The outside world as the scanner uses it: the HTTP client
    ([requests.get(url, headers=...).text]), the HTML parser (the elements
    of the page in document order), and the market-data library
    ([yf.Ticker(t).financials], [yf.download(t, period="3mo")]).  Each
    request may change the world and may raise. *)
Record Provider (W : Type) : Type := {
  requests_get : string -> M W string;
  html_parser : string -> outcome (list Element);
  yf_financials : string -> M W DataFrame;
  yf_download : string -> M W DataFrame
}.
Arguments requests_get {W} _ _ _.
Arguments html_parser {W} _ _.
Arguments yf_financials {W} _ _ _.
Arguments yf_download {W} _ _ _.

(** [soup.find_all(name, limit=n)]. *)
Definition find_all (name : string) (limit : nat) (soup : list Element) : list Element :=
  firstn limit (filter (fun a => String.eqb (tag a) name) soup).

(* ================================================================= *)
(** ** Headline collector (lines 62-70) *)

Definition quote_url (ticker : string) : string :=
  "https://finance.yahoo.com/quote/" ++ ticker ++ "?p=" ++ ticker.

Definition fetch_news {W} (P : Provider W) (ticker : string) : M W (list string) :=
  let url := quote_url ticker in
  try_except
    (html <- requests_get P url ;;
     soup <- lift (html_parser P html) ;;
     let articles := find_all "h3" 5 soup in
     ret (map text articles))%scan
    [].

(* ================================================================= *)
(** ** Fundamental scorer (lines 88-116) *)

Definition fundamental_score {W} (P : Provider W) (ticker : string) : M W (Z * string) :=
  try_except
    (fin <- yf_financials P ticker ;;
     if empty fin then ret (0, "No financials")
     else
       rev_row <- lift (loc fin "Total Revenue") ;;
       let rev := iloc_upto 2 rev_row in
       ni_row <- lift (loc fin "Net Income") ;;
       let ni := iloc_upto 2 ni_row in
       let score := 0 in
       let reason := @nil string in
       rev0 <- lift (iloc rev 0) ;;
       rev1 <- lift (iloc rev 1) ;;
       let '(score, reason) :=
         if float_gt rev0 rev1
         then (score + 10, (reason ++ ["Revenue growing"])%list)
         else (score - 10, (reason ++ ["Revenue declining"])%list) in
       ni0 <- lift (iloc ni 0) ;;
       ni1 <- lift (iloc ni 1) ;;
       let '(score, reason) :=
         if float_gt ni0 ni1
         then (score + 10, (reason ++ ["Net income improving"])%list)
         else (score - 10, (reason ++ ["Net income declining"])%list) in
       ret (score, join ", " reason))%scan
    (0, "Financial analysis error").

(* ================================================================= *)
(** ** Trend scorer (lines 121-135) *)

Definition trend_score {W} (P : Provider W) (ticker : string) : M W (Z * string) :=
  try_except
    (data <- yf_download P ticker ;;
     if empty data then ret (0, "No data")
     else
       close <- lift (getitem data "Close") ;;
       price <- lift (iloc_last close) ;;
       ma20 <- lift (iloc_last (rolling_mean 20 close)) ;;
       if float_gt price ma20 then ret (10, "Uptrend")
       else ret (-10, "Downtrend"))%scan
    (0, "Trend error").

(* ================================================================= *)
(** ** Tickers and weights (lines 31-57) *)

Definition etf_list : list string :=
  ["SPY"; "QQQ"; "DIA"; "IWM"; "VWO"; "EEM"; "XLF"; "XLE"; "XLK"; "XLV";
   "XLY"; "XLP"; "XLB"; "IYR"].

Definition sector_list : list string :=
  ["XLK"; "XLF"; "XLE"; "XLY"; "XLP"; "XLI"; "XLV"; "XLB"; "XLU"].

Inductive scan_type : Type :=
| SingleAsset (typed : string)
| SectorScan
| EtfScan.

(** The tickers of a scan.  The ticker typed for a single asset goes
    through [str.upper], a builtin of the interpreter that works on Unicode
    text (it can change the length of a text); it is the parameter
    [str_upper] here. *)
Definition tickers_of (str_upper : string -> string) (st : scan_type)
  : list string :=
  match st with
  | SingleAsset typed => [str_upper typed]
  | SectorScan => sector_list
  | EtfScan => etf_list
  end.

(** The three sliders, each an integer from 0 to 50. *)
Record Weights : Type := { w_news : Z; w_fund : Z; w_trend : Z }.

Definition slider_range (w : Z) : Prop := 0 <= w <= 50.

Definition valid_weights (w : Weights) : Prop :=
  slider_range (w_news w) /\ slider_range (w_fund w) /\ slider_range (w_trend w).

Definition default_weights : Weights := {| w_news := 20; w_fund := 20; w_trend := 20 |}.

(* ================================================================= *)
(** ** The scan (lines 166-194) *)

Record ScanResult : Type := {
  ticker : string;
  news : Z;
  fund : Z;
  fund_reason : string;
  trend : Z;
  trend_reason : string;
  final_score : float;
  signal : string
}.

(** [sum(sentiment_score(n) for n in news) * 5]. *)
Definition news_score_of (headlines : list string) : Z :=
  py_sum (map sentiment_score headlines) * 5.

(** The weighted blend of lines 179-183. *)
Definition final (news_score f_score t_score : Z) (w : Weights) : float :=
  (int_mul_float news_score (truediv (w_news w) 50)
   + int_mul_float f_score (truediv (w_fund w) 50)
   + int_mul_float t_score (truediv (w_trend w) 50))%float.

(** The blend in exact arithmetic, as the formula reads over the rationals. *)
Definition final_exact (news_score f_score t_score : Z) (w : Weights) : Q :=
  (inject_Z news_score * (inject_Z (w_news w) / 50)
   + inject_Z f_score * (inject_Z (w_fund w) / 50)
   + inject_Z t_score * (inject_Z (w_trend w) / 50))%Q.

(** One term of the blend: a score times its weight over 50. *)
Definition term (score weight : Z) : float := int_mul_float score (truediv weight 50).

(** The integers [lo, lo + 1, ...], [n] of them. *)
Definition zrange (lo : Z) (n : nat) : list Z := map (fun i => lo + Z.of_nat i) (seq 0 n).

(** Every term a score of [scores] can contribute under a slider weight. *)
Definition terms (scores : list Z) : list float :=
  flat_map (fun s => map (term s) (zrange 0 51)) scores.

Definition news_terms : list float := terms (zrange (-175) 351).
Definition fund_terms : list float := terms [-20; 0; 20].
Definition trend_terms : list float := terms [-10; 0; 10].

Definition zeros : list float := [zero; neg_zero].

Definition is_a_zero (x : float) : bool :=
  Leibniz.eqb x zero || Leibniz.eqb x neg_zero.

(** The record appended for one ticker (lines 185-194). *)
Definition result_of (tk : string) (news_score : Z) (f : Z * string) (t : Z * string)
    (w : Weights) : ScanResult :=
  let '(f_score, f_reason) := f in
  let '(t_score, t_reason) := t in
  let final := final news_score f_score t_score w in
  {| ticker := tk;
     news := round_int news_score 2;
     fund := round_int f_score 2;
     fund_reason := f_reason;
     trend := round_int t_score 2;
     trend_reason := t_reason;
     final_score := round_float final 2;
     signal := classify final |}.

(** What every record of a scan satisfies: the scores are in the ranges of
    the three scorers, the final score is the rounded blend and the signal
    is the class of the blend. *)
Definition well_scored (w : Weights) (r : ScanResult) : Prop :=
  (exists k, -35 <= k <= 35 /\ news r = 5 * k)
  /\ In (fund r) [-20; 0; 20]
  /\ In (trend r) [-10; 0; 10]
  /\ final_score r = round_float (final (news r) (fund r) (trend r) w) 2
  /\ signal r = classify (final (news r) (fund r) (trend r) w).

(** One turn of the loop. *)
Definition scan_ticker {W} (P : Provider W) (w : Weights) (tk : string) : M W ScanResult :=
  (headlines <- fetch_news P tk ;;
   let news_score := news_score_of headlines in
   f <- fundamental_score P tk ;;
   t <- trend_score P tk ;;
   ret (result_of tk news_score f t w))%scan.

(** The loop over [tickers], appending to [results]. *)
Fixpoint scan_loop {W} (P : Provider W) (w : Weights) (tickers : list string)
    (results : list ScanResult) : M W (list ScanResult) :=
  match tickers with
  | [] => ret results
  | tk :: rest =>
      (r <- scan_ticker P w tk ;;
       scan_loop P w rest (results ++ [r])%list)%scan
  end.

Definition scan {W} (P : Provider W) (w : Weights) (tickers : list string)
    : M W (list ScanResult) :=
  scan_loop P w tickers [].

(* ================================================================= *)
(** ** Report builder (lines 150-159) *)

Definition report_title : string := "<h1>Market Scanner Report</h1>".

Section Report.

(** [str(x)] of a float inside an f-string (the shortest decimal that
    reads back as [x]); the report's structure does not depend on it. *)
Variable repr_float : float -> string.

(** The six pieces the loop body appends for one result. *)
Definition report_pieces (r : ScanResult) : list string :=
  [ "<h3>" ++ ticker r ++ "</h3>";
    "<p>Score: " ++ repr_float (final_score r) ++ " — " ++ signal r ++ "</p>";
    "<p>News Score: " ++ str_int (news r) ++ "</p>";
    "<p>Fundamentals: " ++ str_int (fund r) ++ " (" ++ fund_reason r ++ ")</p>";
    "<p>Trend: " ++ str_int (trend r) ++ " (" ++ trend_reason r ++ ")</p>";
    "<hr>" ].

(** The loop body: six [html += ...]. *)
Definition report_step (html : string) (r : ScanResult) : string :=
  fold_left String.append (report_pieces r) html.

Definition generate_report (results : list ScanResult) : string :=
  fold_left report_step results report_title.

(** The block of one result, as one string. *)
Definition report_block (r : ScanResult) : string :=
  String.concat "" (report_pieces r).

End Report.

(* ================================================================= *)
(** ** A sample world

    The world counts the requests made.  The ticker [AAPL] has one headline,
    growing revenue and net income and a rising price; [THIN] has a short
    price history and a statement without a net-income row; [VOID] has empty
    tables; every other ticker is unreachable. *)

Definition sample_page : string := "<h3>AAPL beats estimates</h3>".

Definition good_fin : DataFrame :=
  {| index := ["Total Revenue"; "Net Income"];
     columns := ["2024"; "2023"];
     cell := fun i j =>
       match i, j with
       | O, O => 120%float
       | O, _ => 100%float
       | _, O => 12%float
       | _, _ => 9%float
       end%nat |}.

Definition thin_fin : DataFrame :=
  {| index := ["Total Revenue"];
     columns := ["2024"; "2023"];
     cell := fun _ j => match j with O => 50%float | _ => 60%float end |}.

Definition void_frame : DataFrame :=
  {| index := []; columns := ["Close"]; cell := fun _ _ => nan |}.

(** Closing prices [100, 101, ...]: one column [Close], [days] rows. *)
Definition rising_prices (days : nat) : DataFrame :=
  {| index := map (fun i => str_int (Z.of_nat i)) (seq 0 days);
     columns := ["Close"];
     cell := fun i _ => float_of_int (100 + Z.of_nat i) |}.

(** The same close on every day. *)
Definition flat_prices (days : nat) : DataFrame :=
  {| index := map (fun i => str_int (Z.of_nat i)) (seq 0 days);
     columns := ["Close"];
     cell := fun _ _ => 100%float |}.

Definition sample_provider : Provider nat :=
  {| requests_get := fun url w =>
       if String.eqb url "https://finance.yahoo.com/quote/AAPL?p=AAPL"
       then (Ok sample_page, S w)
       else (Raise (ProviderError "unreachable"), S w);
     html_parser := fun html =>
       if String.eqb html sample_page
       then Ok [ {| tag := "title"; text := "AAPL" |};
                 {| tag := "h3"; text := "AAPL beats estimates" |} ]
       else Raise (ProviderError "malformed page");
     yf_financials := fun tk w =>
       if String.eqb tk "AAPL" then (Ok good_fin, S w)
       else if String.eqb tk "THIN" then (Ok thin_fin, S w)
       else if String.eqb tk "VOID" then (Ok void_frame, S w)
       else (Raise (ProviderError "no statement"), S w);
     yf_download := fun tk w =>
       if String.eqb tk "AAPL" then (Ok (rising_prices 62), S w)
       else if String.eqb tk "THIN" then (Ok (rising_prices 5), S w)
       else if String.eqb tk "VOID" then (Ok void_frame, S w)
       else (Raise (ProviderError "no prices"), S w) |}.

(** A formatter that agrees with [repr] on the floats nearest to a decimal
    with two fractional digits, as [round(x, 2)] returns them. *)
Definition repr_2dp (x : float) : string :=
  match Prim2SF x with
  | S754_finite s m e =>
      let n := if 0 <=? e then Zpos m * 2 ^ e * 100
               else div_half_even (Zpos m * 100) (2 ^ (- e)) in
      let frac := n mod 100 in
      (if s then "-" else "") ++ str_int (n / 100) ++ "." ++ str_int (frac / 10)
        ++ (if frac mod 10 =? 0 then "" else str_int (frac mod 10))
  | S754_zero s => if s then "-0.0" else "0.0"
  | S754_infinity s => if s then "-inf" else "inf"
  | S754_nan => "nan"
  end.

(* ================================================================= *)
(** ** Measures used by the further properties *)

(** The place of a label in the order of the classifier, lowest first. *)
Definition label_rank (label : string) : nat :=
  if String.eqb label STRONG_BULLISH then 4
  else if String.eqb label BULLISH then 3
  else if String.eqb label NEUTRAL then 2
  else if String.eqb label BEARISH then 1
  else 0.

(** The fields of a record that the scorers produce, without the two that
    depend on the weights. *)
Definition component_scores (r : ScanResult) : string * Z * Z * string * Z * string :=
  (ticker r, news r, fund r, fund_reason r, trend r, trend_reason r).

(** The answers the two scorers can give. *)
Definition fundamental_answers : list (Z * string) :=
  [ (0, "No financials");
    (20, "Revenue growing, Net income improving");
    (0, "Revenue growing, Net income declining");
    (0, "Revenue declining, Net income improving");
    (-20, "Revenue declining, Net income declining");
    (0, "Financial analysis error") ].

Definition trend_answers : list (Z * string) :=
  [ (0, "No data"); (10, "Uptrend"); (-10, "Downtrend"); (0, "Trend error") ].

(** A second sample world, with gaps in the data: every ticker has a
    statement whose latest revenue is missing (NaN) and a price history of
    30 days with the close of day 25 missing. *)
Definition gap_fin : DataFrame :=
  {| index := ["Total Revenue"; "Net Income"];
     columns := ["2024"; "2023"];
     cell := fun i j =>
       match i, j with
       | O, O => nan
       | O, _ => 100%float
       | _, O => 12%float
       | _, _ => 9%float
       end%nat |}.

Definition gap_prices : DataFrame :=
  {| index := map (fun i => str_int (Z.of_nat i)) (seq 0 30);
     columns := ["Close"];
     cell := fun i _ => if (i =? 25)%nat then nan else float_of_int (100 + Z.of_nat i) |}.

Definition gap_provider : Provider nat :=
  {| requests_get := fun _ w => (Raise (ProviderError "unreachable"), S w);
     html_parser := fun _ => Raise (ProviderError "malformed page");
     yf_financials := fun _ w => (Ok gap_fin, S w);
     yf_download := fun _ w => (Ok gap_prices, S w) |}.

(** Ten closes of 50, then twenty closes of 100.1. *)
Definition settled_prices : DataFrame :=
  {| index := map (fun i => str_int (Z.of_nat i)) (seq 0 30);
     columns := ["Close"];
     cell := fun i _ => if (i <? 10)%nat then 50%float
                        else 0x1.9066666666666p+6%float |}.

Definition settled_provider : Provider nat :=
  {| requests_get := fun _ w => (Raise (ProviderError "unreachable"), S w);
     html_parser := fun _ => Raise (ProviderError "malformed page");
     yf_financials := fun _ w => (Ok gap_fin, S w);
     yf_download := fun _ w => (Ok settled_prices, S w) |}.

(* ================================================================= *)
(** ** Reading a report back *)

(** A text without the character that opens a tag. *)
Fixpoint clean (s : string) : bool :=
  match s with
  | EmptyString => true
  | String c rest => negb (Ascii.eqb c "<") && clean rest
  end.

(** The pieces of a document between the characters that open a tag. *)
Fixpoint split_lt (s : string) : list string :=
  match s with
  | EmptyString => [""]
  | String c rest =>
      if Ascii.eqb c "<" then "" :: split_lt rest
      else match split_lt rest with
           | piece :: pieces => String c piece :: pieces
           | [] => [String c ""]
           end
  end.

(** [s] without the prefix [p], when it has it. *)
Fixpoint strip_prefix (p s : string) : option string :=
  match p with
  | EmptyString => Some s
  | String a p' =>
      match s with
      | EmptyString => None
      | String b s' => if Ascii.eqb a b then strip_prefix p' s' else None
      end
  end.

(** The header a piece holds, when it starts an [h3] element. *)
Definition header_pieces (piece : string) : list string :=
  match strip_prefix "h3>" piece with
  | Some h => [h]
  | None => []
  end.

(** The contents of the [h3] elements of a document, in document order. *)
Definition headers (html : string) : list string :=
  flat_map header_pieces (split_lt html).

(** A document written as its tags, each with the text that follows it. *)
Definition segments (bodies : list string) : string :=
  fold_right (fun body rest => String "<" (body ++ rest)) "" bodies.

Definition title_bodies : list string := ["h1>Market Scanner Report"; "/h1>"].

Definition block_bodies (repr_float : float -> string) (r : ScanResult) : list string :=
  [ "h3>" ++ ticker r; "/h3>";
    "p>Score: " ++ repr_float (final_score r) ++ " — " ++ signal r; "/p>";
    "p>News Score: " ++ str_int (news r); "/p>";
    "p>Fundamentals: " ++ str_int (fund r) ++ " (" ++ fund_reason r ++ ")"; "/p>";
    "p>Trend: " ++ str_int (trend r) ++ " (" ++ trend_reason r ++ ")"; "/p>";
    "hr>" ].

(** A record whose texts open no tag. *)
Definition clean_record (r : ScanResult) : Prop :=
  clean (ticker r) = true /\ clean (signal r) = true
  /\ clean (fund_reason r) = true /\ clean (trend_reason r) = true.


(* ================================================================= *)
(** * Properties *)

(* ================================================================= *)
(** ** Strings *)

Lemma prefix_append (word text : string) :
  prefix word text = true <-> exists rest, text = word ++ rest.
Proof.
  revert word; induction text as [|d text IH]; intros [|c word]; simpl.
  - split; [intros _; now exists "" | reflexivity].
  - split; [discriminate | intros [rest H]; discriminate].
  - split; [intros _; now exists (String d text) | reflexivity].
  - destruct (ascii_dec c d) as [->|Hcd].
    + rewrite IH. split; intros [rest H]; exists rest; congruence.
    + split; [discriminate | intros [rest H]; congruence].
Qed.

Lemma contains_occurs_in (word text : string) :
  contains word text = true <-> occurs_in word text.
Proof.
  unfold occurs_in. induction text as [|d text IH]; cbn [contains].
  - rewrite prefix_append. split.
    + intros [rest H]. exists "", rest. exact H.
    + intros [before [after H]]. destruct before; [|discriminate].
      exists after. exact H.
  - rewrite orb_true_iff, IH, prefix_append. split.
    + intros [[rest H] | [before [after H]]].
      * exists "", rest. exact H.
      * exists (String d before), after. cbn [append]. now rewrite H.
    + intros [before [after H]]. destruct before as [|b before]; cbn [append] in H.
      * left. now exists after.
      * right. exists before, after. congruence.
Qed.

Lemma lower_ascii_idem (c : ascii) : lower_ascii (lower_ascii c) = lower_ascii c.
Proof. destruct c as [[] [] [] [] [] [] [] []]; reflexivity. Qed.

Lemma lower_idem (s : string) : lower (lower s) = lower s.
Proof.
  induction s as [|c s IH]; simpl; [reflexivity|].
  now rewrite lower_ascii_idem, IH.
Qed.

Lemma py_sum_from (xs : list Z) (acc : Z) : fold_left Z.add xs acc = acc + py_sum xs.
Proof.
  unfold py_sum. revert acc. induction xs as [|x xs IH]; intros acc; cbn [fold_left].
  - lia.
  - rewrite (IH (acc + x)), (IH (0 + x)). lia.
Qed.

Lemma py_sum_cons (x : Z) (xs : list Z) : py_sum (x :: xs) = x + py_sum xs.
Proof. unfold py_sum at 1. simpl. now rewrite py_sum_from. Qed.

Lemma py_sum_bool_counts (p : string -> bool) (terms : list string) :
  py_sum_bool (map p terms) = Z.of_nat (List.length (filter p terms)).
Proof.
  unfold py_sum_bool. induction terms as [|w terms IH]; [reflexivity|].
  cbn [map filter]. rewrite py_sum_cons, IH.
  destruct (p w); cbn [Z.b2z List.length]; lia.
Qed.

Lemma py_sum_bool_bounds (p : string -> bool) (terms : list string) :
  0 <= py_sum_bool (map p terms) <= Z.of_nat (List.length terms).
Proof.
  rewrite py_sum_bool_counts. pose proof (filter_length_le p terms). lia.
Qed.

(* ================================================================= *)
(** ** Sentiment scorer *)

Lemma sentiment_score_bounds (text : string) : -7 <= sentiment_score text <= 7.
Proof.
  unfold sentiment_score.
  pose proof (py_sum_bool_bounds (fun word => contains word (lower text)) positive_words) as Hp.
  pose proof (py_sum_bool_bounds (fun word => contains word (lower text)) negative_words) as Hn.
  simpl List.length in Hp, Hn. lia.
Qed.

(** A term counts once however often it occurs, and it counts inside a
    longer word. *)
Example sentiment_score_repeated_term : sentiment_score "growth, growth, growth" = 1.
Proof. reflexivity. Qed.

Example sentiment_score_inside_word : sentiment_score "A stronghold" = 1.
Proof. reflexivity. Qed.

(** C3. For every text, [sentiment_score] lower-cases the text and returns
    the number of positive terms the lower-cased text contains minus the
    number of negative terms it contains, where a term is contained when it
    is a contiguous part of the text (not a token of it); the score does not
    change when the text is lower-cased beforehand, "Strong Growth" scores as
    "strong growth" does, and the empty text scores 0. *)
Theorem sentiment_score_counts_terms (t : string) :
  sentiment_score t
    = terms_contained positive_words (lower t) - terms_contained negative_words (lower t)
  /\ (forall word, contains word (lower t) = true <-> occurs_in word (lower t))
  /\ sentiment_score (lower t) = sentiment_score t
  /\ sentiment_score "Strong Growth" = sentiment_score "strong growth"
  /\ sentiment_score "" = 0.
Proof.
  repeat split.
  - unfold sentiment_score, terms_contained. now rewrite !py_sum_bool_counts.
  - apply contains_occurs_in.
  - apply contains_occurs_in.
  - unfold sentiment_score. now rewrite lower_idem.
Qed.

(* ================================================================= *)
(** ** The order on floats

    The comparisons of binary64, read through their specification on
    [spec_float]: away from NaN they are a total order. *)

Ltac compare_cases :=
  repeat match goal with
    | H : context [Pos.compare_cont Eq ?a ?b] |- _ =>
        change (Pos.compare_cont Eq a b) with (Pos.compare a b) in H
    | |- context [Pos.compare_cont Eq ?a ?b] =>
        change (Pos.compare_cont Eq a b) with (Pos.compare a b)
    | H : context [Z.compare ?a ?b] |- _ => destruct (Z.compare_spec a b)
    | |- context [Z.compare ?a ?b] => destruct (Z.compare_spec a b)
    | H : context [Pos.compare ?a ?b] |- _ => destruct (Pos.compare_spec a b)
    | |- context [Pos.compare ?a ?b] => destruct (Pos.compare_spec a b)
    end;
  cbn in *; try reflexivity; try discriminate; try lia.

Lemma SFcompare_refl (x : spec_float) : x <> S754_nan -> SFcompare x x = Some Eq.
Proof.
  destruct x as [s|s| |s m e]; intros H; simpl; try congruence.
  - now destruct s.
  - destruct s; compare_cases.
Qed.

Lemma SFcompare_antisym (x y : spec_float) :
  SFcompare y x = option_map CompOpp (SFcompare x y).
Proof.
  destruct x as [s|s| |s m e], y as [s'|s'| |s' m' e']; simpl;
    try destruct s; try destruct s'; try reflexivity; compare_cases.
Qed.

Lemma SFleb_trans (x y z : spec_float) :
  SFleb x y = true -> SFleb y z = true -> SFleb x z = true.
Proof.
  unfold SFleb.
  destruct x as [s|s| |s m e], y as [s'|s'| |s' m' e'], z as [s''|s''| |s'' m'' e''];
    simpl; try destruct s; try destruct s'; try destruct s'';
    try reflexivity; try discriminate; intros H1 H2; compare_cases.
Qed.

Lemma is_nan_spec (x : float) : is_nan x = true <-> Prim2SF x = S754_nan.
Proof.
  unfold is_nan. rewrite FloatAxioms.eqb_spec. unfold SFeqb.
  destruct (Prim2SF x) as [s|s| |s m e] eqn:E.
  - split; discriminate.
  - destruct s; split; discriminate.
  - split; reflexivity.
  - rewrite SFcompare_refl by discriminate. split; discriminate.
Qed.

Lemma not_nan_spec (x : float) : is_nan x = false <-> Prim2SF x <> S754_nan.
Proof.
  rewrite <- is_nan_spec. destruct (is_nan x); split; congruence.
Qed.

Lemma SFcompare_numbers (x y : spec_float) :
  x <> S754_nan -> y <> S754_nan -> exists c, SFcompare x y = Some c.
Proof.
  destruct x as [s|s| |s m e], y as [s'|s'| |s' m' e']; intros Hx Hy;
    try congruence; simpl; eauto.
Qed.

(** [x < y] is the negation of [y <= x] on numbers. *)
Lemma ltb_negb_leb (x y : float) :
  is_nan x = false -> is_nan y = false -> (x <? y)%float = negb (y <=? x)%float.
Proof.
  rewrite !not_nan_spec, FloatAxioms.ltb_spec, FloatAxioms.leb_spec.
  unfold SFltb, SFleb. intros Hx Hy.
  rewrite (SFcompare_antisym (Prim2SF x) (Prim2SF y)).
  destruct (SFcompare_numbers _ _ Hx Hy) as [c ->]. now destruct c.
Qed.

Lemma leb_trans (x y z : float) :
  (x <=? y)%float = true -> (y <=? z)%float = true -> (x <=? z)%float = true.
Proof. rewrite !FloatAxioms.leb_spec. apply SFleb_trans. Qed.

(** Two numbers that compare equal: neither is above the other. *)
Lemma eqb_not_ltb (x y : float) : (x =? y)%float = true -> (y <? x)%float = false.
Proof.
  rewrite FloatAxioms.eqb_spec, FloatAxioms.ltb_spec. unfold SFeqb, SFltb.
  rewrite (SFcompare_antisym (Prim2SF x) (Prim2SF y)).
  now destruct (SFcompare (Prim2SF x) (Prim2SF y)) as [[]|].
Qed.

(** Nothing is above or below NaN. *)
Lemma ltb_nan_l (x : float) : (nan <? x)%float = false.
Proof. rewrite FloatAxioms.ltb_spec. reflexivity. Qed.

Lemma float_gt_nan_r (x : float) : float_gt x nan = false.
Proof. apply ltb_nan_l. Qed.

(* ================================================================= *)
(** ** Classifier *)

Lemma float_lt_int_negb (f : float) (n : Z) :
  is_nan f = false -> is_nan (float_of_int n) = false ->
  float_lt_int f n = negb (float_ge_int f n).
Proof. intros Hf Hn. now apply ltb_negb_leb. Qed.

Lemma float_ge_int_mono (f : float) (n k : Z) :
  (float_of_int k <=? float_of_int n)%float = true ->
  float_ge_int f n = true -> float_ge_int f k = true.
Proof. unfold float_ge_int. intros Hkn Hn. exact (leb_trans _ _ _ Hkn Hn). Qed.

(** NaN, which no real score is, falls through every test. *)
Lemma classify_nan : classify nan = STRONG_BEARISH.
Proof. reflexivity. Qed.

(** C1. The classifier is a total function of the score: every score that
    is a number gets exactly one of the five labels, by descending threshold;
    a score of at least 60 is STRONG BULLISH, one below 60 and at least 40 is
    BULLISH, one below 40 and at least 25 is NEUTRAL, one below 25 and at
    least 10 is BEARISH, one below 10 is STRONG BEARISH; exactly one of the
    five bands holds of a score, the five labels are distinct, and each of
    60, 40, 25 and 10 belongs to the higher band. *)
Theorem classify_partitions_scores (f : float) :
  is_nan f = false ->
  (float_ge_int f 60 = true -> classify f = STRONG_BULLISH)
  /\ (float_lt_int f 60 = true -> float_ge_int f 40 = true -> classify f = BULLISH)
  /\ (float_lt_int f 40 = true -> float_ge_int f 25 = true -> classify f = NEUTRAL)
  /\ (float_lt_int f 25 = true -> float_ge_int f 10 = true -> classify f = BEARISH)
  /\ (float_lt_int f 10 = true -> classify f = STRONG_BEARISH)
  /\ count_occ bool_dec (bands f) true = 1%nat
  /\ In (classify f) labels
  /\ NoDup labels
  /\ map label_name labels
     = ["STRONG BULLISH"; "BULLISH"; "NEUTRAL"; "BEARISH"; "STRONG BEARISH"]
  /\ classify 60 = STRONG_BULLISH /\ classify 40 = BULLISH
  /\ classify 25 = NEUTRAL /\ classify 10 = BEARISH.
Proof.
  intros Hf.
  assert (H64 : float_ge_int f 60 = true -> float_ge_int f 40 = true)
    by (apply float_ge_int_mono; reflexivity).
  assert (H42 : float_ge_int f 40 = true -> float_ge_int f 25 = true)
    by (apply float_ge_int_mono; reflexivity).
  assert (H21 : float_ge_int f 25 = true -> float_ge_int f 10 = true)
    by (apply float_ge_int_mono; reflexivity).
  assert (Hdistinct : NoDup labels).
  { unfold labels. repeat constructor; cbn [In]; intros H;
      repeat destruct H as [H|H]; try discriminate H; exact H. }
  unfold bands, classify.
  rewrite !(float_lt_int_negb f) by (assumption || reflexivity).
  destruct (float_ge_int f 60), (float_ge_int f 40), (float_ge_int f 25),
    (float_ge_int f 10);
    try (specialize (H64 eq_refl); discriminate H64);
    try (specialize (H42 eq_refl); discriminate H42);
    try (specialize (H21 eq_refl); discriminate H21).
  all: repeat split; try assumption; try reflexivity; try discriminate;
    cbn [In labels]; auto 6.
Qed.

Lemma classify_partitions_scores_witness :
  is_nan 59.5%float = false /\ classify 59.5%float = BULLISH.
Proof.
  split; [reflexivity|].
  apply (classify_partitions_scores 59.5%float); reflexivity.
Defined.

(* ================================================================= *)
(** ** Tables *)

Lemma last_map_seq {A} (f : nat -> A) (n : nat) (d : A) :
  last (map f (seq 0 (S n))) d = f n.
Proof. rewrite seq_S, map_app. cbn [map]. apply last_last. Qed.

Lemma getitem_length (df : DataFrame) (label : string) (s : Series) :
  getitem df label = Ok s -> List.length s = List.length (index df).
Proof.
  unfold getitem. destruct (position label (columns df)); [|discriminate].
  intros [= <-]. now rewrite length_map, length_seq.
Qed.

(** A table is empty when it has no row or no column. *)
Lemma empty_spec (df : DataFrame) :
  empty df = true <-> index df = [] \/ columns df = [].
Proof.
  unfold empty. rewrite orb_true_iff, !Nat.eqb_eq, !length_zero_iff_nil.
  reflexivity.
Qed.

Lemma empty_false (df : DataFrame) :
  empty df = false -> index df <> [] /\ columns df <> [].
Proof.
  unfold empty. rewrite orb_false_iff, !Nat.eqb_neq.
  intros [Hi Hc]. split; intros E; rewrite E in *; auto.
Qed.

Lemma getitem_nonempty (df : DataFrame) (label : string) (s : Series) :
  empty df = false -> getitem df label = Ok s -> s <> [].
Proof.
  intros He Hs E. apply getitem_length in Hs. apply empty_false in He.
  destruct He as [Hi _]. subst s. destruct (index df); [congruence | discriminate].
Qed.

(** *** The rolling mean *)

(** The rolling mean, row by row. *)
Lemma roll_mean_from_state (values : list float) (window : nat) (minp : Z)
    (n i : nat) :
  roll_mean_from values window minp (state_at values window i) (seq (S i) n)
  = map (fun j => calc_mean minp (state_at values window j)) (seq (S i) n).
Proof.
  revert i. induction n as [|n IH]; intros i; [reflexivity|].
  cbn [seq roll_mean_from map]. f_equal. apply (IH (S i)).
Qed.

Lemma roll_mean_states (values : list float) (window : nat) (minp : Z) :
  roll_mean values window minp
  = map (fun j => calc_mean minp (state_at values window j))
        (seq 0 (List.length values)).
Proof.
  unfold roll_mean. destruct (List.length values) as [|n]; [reflexivity|].
  cbn [seq roll_mean_from map]. f_equal. apply (roll_mean_from_state _ _ _ n 0).
Qed.

(** The last entry of the rolling mean comes from the state after the last
    row. *)
Lemma rolling_mean_last (window : nat) (s : Series) :
  s <> [] ->
  last (rolling_mean window s) nan
  = calc_mean (Z.of_nat window)
              (state_at (map prep_value s) window (List.length s - 1)).
Proof.
  intros Hs. unfold rolling_mean. rewrite roll_mean_states, length_map.
  destruct s as [|x s]; [congruence|]. cbn [List.length].
  rewrite last_map_seq. f_equal. f_equal. lia.
Qed.

Lemma rolling_mean_length (window : nat) (s : Series) :
  List.length (rolling_mean window s) = List.length s.
Proof.
  unfold rolling_mean. now rewrite roll_mean_states, !length_map, length_seq.
Qed.

(** *** The rows observed in a window *)

Lemma count_obs_app (xs ys : list float) :
  count_obs (xs ++ ys) = count_obs xs + count_obs ys.
Proof. unfold count_obs. rewrite filter_app, length_app. lia. Qed.

Lemma count_obs_le (xs : list float) :
  0 <= count_obs xs <= Z.of_nat (List.length xs).
Proof.
  unfold count_obs. pose proof (filter_length_le observed xs). lia.
Qed.

Lemma count_obs_missing (xs : list float) (x : float) :
  In x xs -> observed x = false -> count_obs xs < Z.of_nat (List.length xs).
Proof.
  intros Hin Hx. induction xs as [|y xs IH]; [destruct Hin|].
  unfold count_obs in *. cbn [filter List.length]. destruct Hin as [->|Hin].
  - rewrite Hx. pose proof (filter_length_le observed xs). lia.
  - specialize (IH Hin). destruct (observed y); cbn [List.length]; lia.
Qed.

Lemma count_obs_repeat (c : float) (n : nat) :
  observed c = true -> count_obs (repeat c n) = Z.of_nat n.
Proof.
  intros Hc. unfold count_obs. induction n as [|n IH]; [reflexivity|].
  cbn [repeat filter]. rewrite Hc. cbn [List.length]. lia.
Qed.

Lemma nobs_add_mean (st : mean_state) (val : float) :
  nobs (add_mean st val) = nobs st + count_obs [val].
Proof.
  unfold add_mean, count_obs, observed. cbn [filter].
  destruct (val =? val)%float; cbn [nobs List.length]; lia.
Qed.

Lemma nobs_remove_mean (st : mean_state) (val : float) :
  nobs (remove_mean st val) = nobs st - count_obs [val].
Proof.
  unfold remove_mean, count_obs, observed. cbn [filter].
  destruct (val =? val)%float; cbn [nobs List.length]; lia.
Qed.

Lemma nobs_fold_add (xs : list float) (st : mean_state) :
  nobs (fold_left add_mean xs st) = nobs st + count_obs xs.
Proof.
  revert st. induction xs as [|x xs IH]; intros st.
  - cbn. unfold count_obs. cbn. lia.
  - cbn [fold_left]. rewrite IH, nobs_add_mean.
    change (x :: xs) with ([x] ++ xs)%list. rewrite count_obs_app. lia.
Qed.

Lemma nobs_fold_remove (xs : list float) (st : mean_state) :
  nobs (fold_left remove_mean xs st) = nobs st - count_obs xs.
Proof.
  revert st. induction xs as [|x xs IH]; intros st.
  - cbn. unfold count_obs. cbn. lia.
  - cbn [fold_left]. rewrite IH, nobs_remove_mean.
    change (x :: xs) with ([x] ++ xs)%list. rewrite count_obs_app. lia.
Qed.

Lemma rows_app (values : list float) (a n m : nat) :
  rows values a (n + m) = (rows values a n ++ rows values (a + n) m)%list.
Proof. unfold rows. now rewrite seq_app, map_app. Qed.

Lemma rows_length (values : list float) (a n : nat) :
  List.length (rows values a n) = n.
Proof. unfold rows. now rewrite length_map, length_seq. Qed.

Lemma rows_skipn (values : list float) (a : nat) :
  rows values a (List.length values - a) = skipn a values.
Proof.
  unfold rows. revert a. induction values as [|x vs IH]; intros a.
  - now destruct a.
  - destruct a as [|a].
    + cbn [List.length Nat.sub seq map nth skipn]. f_equal.
      rewrite <- seq_shift, map_map. cbn [nth].
      specialize (IH 0%nat). rewrite Nat.sub_0_r in IH. exact IH.
    + cbn [List.length Nat.sub skipn]. rewrite <- seq_shift, map_map. cbn [nth].
      apply IH.
Qed.

(** The number of rows counted in the state is the number of rows of the
    current window that are observed. *)
Lemma nobs_state_at (values : list float) (window i : nat) :
  nobs (state_at values window i)
  = count_obs (window_rows values window i).
Proof.
  unfold window_rows.
  induction i as [|i IH].
  - cbn [state_at]. unfold roll_step. cbn [Nat.eqb orb].
    now rewrite nobs_fold_add.
  - cbn [state_at]. unfold roll_step. cbn [Nat.eqb orb].
    destruct (Nat.leb_spec (S i) (window_start window (S i))) as [Hs|Hs].
    + now rewrite nobs_fold_add.
    + rewrite nobs_add_mean, nobs_fold_remove, IH.
      replace (S i - 1)%nat with i by lia.
      unfold window_start in *.
      set (s' := (S i - window)%nat). set (s := (S (S i) - window)%nat).
      replace (S i - s')%nat with ((s - s') + (S i - s))%nat by lia.
      replace (S (S i) - s)%nat with ((S i - s) + 1)%nat by lia.
      rewrite !rows_app, !count_obs_app.
      replace (s' + (s - s'))%nat with s by lia.
      replace (s + (S i - s))%nat with (S i) by lia.
      change (rows values (S i) 1) with [nth (S i) values nan]. lia.
Qed.

Lemma calc_mean_few (minp : Z) (st : mean_state) :
  nobs st < minp -> calc_mean minp st = nan.
Proof.
  intros H. unfold calc_mean.
  destruct (Z.leb_spec minp (nobs st)); [lia | reflexivity].
Qed.

Lemma window_rows_length (values : list float) (window i : nat) :
  (List.length (window_rows values window i) <= window)%nat
  /\ (List.length (window_rows values window i) <= S i)%nat.
Proof. unfold window_rows, window_start. rewrite rows_length. lia. Qed.

(** Until [window] rows are there the rolling mean is missing. *)
Lemma rolling_mean_short (window : nat) (s : Series) :
  s <> [] -> (List.length s < window)%nat ->
  last (rolling_mean window s) nan = nan.
Proof.
  intros Hs Hlen. rewrite rolling_mean_last by assumption.
  apply calc_mean_few. rewrite nobs_state_at.
  pose proof (count_obs_le (window_rows (map prep_value s) window (List.length s - 1))).
  pose proof (window_rows_length (map prep_value s) window (List.length s - 1)).
  destruct s; [congruence|]. cbn [List.length] in *. lia.
Qed.

Lemma observed_is_nan (x : float) : observed x = negb (is_nan x).
Proof. unfold observed, is_nan. now rewrite negb_involutive. Qed.

Lemma prep_value_nan (x : float) :
  is_nan x = true -> observed (prep_value x) = false.
Proof.
  intros Hx. unfold prep_value. destruct (is_infinity x); [reflexivity|].
  now rewrite observed_is_nan, Hx.
Qed.

Lemma prep_value_infinity (x : float) :
  is_infinity x = true -> observed (prep_value x) = false.
Proof. intros Hx. unfold prep_value. now rewrite Hx. Qed.

Lemma prep_value_finite (x : float) :
  is_infinity x = false -> prep_value x = x.
Proof. intros Hx. unfold prep_value. now rewrite Hx. Qed.

(** The last window of a series is its last [window] rows. *)
Lemma window_rows_last (window : nat) (values : list float) :
  values <> [] ->
  window_rows values window (List.length values - 1)
  = skipn (List.length values - window) values.
Proof.
  intros Hv. unfold window_rows, window_start.
  destruct values as [|x vs]; [congruence|]. cbn [List.length].
  replace (S (S (List.length vs) - 1) - window)%nat
    with (S (List.length vs) - window)%nat by lia.
  replace (S (S (List.length vs) - 1) - (S (List.length vs) - window))%nat
    with (List.length (x :: vs) - (S (List.length vs) - window))%nat
    by (cbn [List.length]; lia).
  apply rows_skipn.
Qed.

(** A missing or infinite close among the last [window] ones makes the mean
    at the last position missing. *)
Lemma rolling_mean_missing (window : nat) (s : Series) (x : float) :
  In x (skipn (List.length s - window) s) ->
  observed (prep_value x) = false ->
  last (rolling_mean window s) nan = nan.
Proof.
  intros Hin Hx.
  assert (Hs : s <> []) by (intros ->; now destruct (0 - window)%nat).
  rewrite rolling_mean_last by assumption.
  apply calc_mean_few. rewrite nobs_state_at.
  replace (List.length s) with (List.length (map prep_value s))
    by apply length_map.
  rewrite window_rows_last by (destruct s; [congruence | discriminate]).
  rewrite length_map, skipn_map.
  pose proof (count_obs_missing (map prep_value (skipn (List.length s - window) s))
                (prep_value x) (in_map _ _ _ Hin) Hx) as Hc.
  rewrite length_map, length_skipn in Hc. lia.
Qed.

Lemma iloc_last_rolling_mean (window : nat) (s : Series) :
  s <> [] ->
  iloc_last (rolling_mean window s) = Ok (last (rolling_mean window s) nan).
Proof.
  intros Hs. pose proof (rolling_mean_length window s) as Hl.
  destruct (rolling_mean window s); [|reflexivity].
  destruct s; [congruence | discriminate].
Qed.

(** Thirty closes of 100.1: the library returns the repeated close itself.
    (Twenty of them added up and divided by 20 give 100.09999999999997.) *)
Example rolling_mean_repeated_close :
  last (rolling_mean 20 (repeat 0x1.9066666666666p+6%float 30)) nan
  = 0x1.9066666666666p+6%float
  /\ (fold_left PrimFloat.add (repeat 0x1.9066666666666p+6%float 20) zero / 20)%float
     = 0x1.9066666666664p+6%float.
Proof. split; vm_compute; reflexivity. Qed.

(** Closes that have left the window leave a trace in the running sum: after
    -1e17 and 1e17, nineteen closes of 5 and one of 5.01 have the rolling
    mean 5.3005, where the mean of these twenty alone is 5.0005. *)
Example rolling_mean_running_sum :
  last (rolling_mean 20 ([(-0x1.6345785d8a000p+56)%float; 0x1.6345785d8a000p+56%float]
                         ++ repeat 5%float 19 ++ [0x1.40a3d70a3d70ap+2%float])%list) nan
  = 0x1.533b645a1cac1p+2%float.
Proof. vm_compute. reflexivity. Qed.

(** A window of 3: missing until 3 rows are observed; a missing or an
    infinite row makes the windows that hold it missing. *)
Example rolling_mean_window_3 :
  rolling_mean 3 [1; 2; 3; nan; 5; 6; 7; infinity; 9; 10; 11]%float
  = [nan; nan; 2; nan; nan; nan; 6; nan; nan; nan; 10]%float.
Proof. vm_compute. reflexivity. Qed.

Lemma iloc_upto_2 (s : Series) (i : nat) :
  (i < 2)%nat -> iloc (iloc_upto 2 s) i = iloc s i.
Proof.
  intros Hi. unfold iloc, iloc_upto.
  destruct s as [|a [|b s]]; destruct i as [|[|i]]; try reflexivity; lia.
Qed.

(* ================================================================= *)
(** ** Fundamental scorer *)

(** Running a scorer: unfold the plumbing of the monad. *)
Ltac run := unfold try_except, bind, lift, ret in *; cbn beta iota in *.

Lemma fundamental_score_total {W} (P : Provider W) (tk : string) (w : W) :
  exists score reason w',
    fundamental_score P tk w = (Ok (score, reason), w')
    /\ (score = -20 \/ score = 0 \/ score = 20).
Proof.
  unfold fundamental_score. run.
  destruct (yf_financials P tk w) as [[fin|e] w']; [|eauto 8].
  destruct (empty fin); [eauto 8|].
  destruct (loc fin "Total Revenue") as [rev|e]; [|eauto 8].
  destruct (loc fin "Net Income") as [ni|e]; [|eauto 8].
  destruct (iloc (iloc_upto 2 rev) 0) as [rev0|e]; [|eauto 8].
  destruct (iloc (iloc_upto 2 rev) 1) as [rev1|e]; [|eauto 8].
  destruct (float_gt rev0 rev1);
    (destruct (iloc (iloc_upto 2 ni) 0) as [ni0|e]; [|eauto 8]);
    (destruct (iloc (iloc_upto 2 ni) 1) as [ni1|e]; [|eauto 8]);
    destruct (float_gt ni0 ni1); cbn; eauto 8.
Qed.

(** C4. For every ticker and every state of the world: when the statement
    retrieved has no row (or no period), the fundamental scorer returns
    (0, "No financials"); when it has the two rows with two figures each, the
    scorer adds +10 and "Revenue growing" if the latest revenue exceeds the
    prior one, else -10 and "Revenue declining", then +10 and "Net income
    improving" if the latest net income exceeds the prior one, else -10 and
    "Net income declining", and returns the sum with the two fragments joined
    by ", " -- (20, "Revenue growing, Net income improving") when both exceed;
    whatever the world, the score returned is -20, 0 or 20. *)
Theorem fundamental_score_returns {W} (P : Provider W) (tk : string) (w : W) :
  (forall fin w',
      yf_financials P tk w = (Ok fin, w') ->
      index fin = [] \/ columns fin = [] ->
      fundamental_score P tk w = (Ok (0, "No financials"), w'))
  /\ (forall fin w' rev ni rev0 rev1 ni0 ni1,
      yf_financials P tk w = (Ok fin, w') -> empty fin = false ->
      loc fin "Total Revenue" = Ok rev -> loc fin "Net Income" = Ok ni ->
      iloc rev 0 = Ok rev0 -> iloc rev 1 = Ok rev1 ->
      iloc ni 0 = Ok ni0 -> iloc ni 1 = Ok ni1 ->
      fundamental_score P tk w
      = (Ok ((if float_gt rev0 rev1 then 10 else -10)
             + (if float_gt ni0 ni1 then 10 else -10),
             (if float_gt rev0 rev1 then "Revenue growing" else "Revenue declining")
             ++ ", "
             ++ (if float_gt ni0 ni1 then "Net income improving"
                 else "Net income declining")), w')
      /\ (float_gt rev0 rev1 = true -> float_gt ni0 ni1 = true ->
          fundamental_score P tk w
          = (Ok (20, "Revenue growing, Net income improving"), w')))
  /\ (exists score reason w',
      fundamental_score P tk w = (Ok (score, reason), w')
      /\ (score = -20 \/ score = 0 \/ score = 20)).
Proof.
  split; [|split].
  - intros fin w' Hfin He. apply empty_spec in He.
    unfold fundamental_score. run. now rewrite Hfin, He.
  - intros fin w' rev ni rev0 rev1 ni0 ni1 Hfin He Hrev Hni H0 H1 H2 H3.
    assert (Hrun : fundamental_score P tk w
      = (Ok ((if float_gt rev0 rev1 then 10 else -10)
             + (if float_gt ni0 ni1 then 10 else -10),
             (if float_gt rev0 rev1 then "Revenue growing" else "Revenue declining")
             ++ ", "
             ++ (if float_gt ni0 ni1 then "Net income improving"
                 else "Net income declining")), w')).
    { unfold fundamental_score. run. rewrite Hfin, He, Hrev, Hni.
      rewrite !iloc_upto_2 by lia. rewrite H0, H1, H2, H3.
      destruct (float_gt rev0 rev1), (float_gt ni0 ni1); reflexivity. }
    split; [exact Hrun|]. intros Hr Hn. rewrite Hrun, Hr, Hn. reflexivity.
  - apply fundamental_score_total.
Qed.

Lemma fundamental_score_returns_witness :
  fundamental_score sample_provider "AAPL" 0%nat
  = (Ok (20, "Revenue growing, Net income improving"), 1%nat).
Proof.
  destruct (fundamental_score_returns sample_provider "AAPL" 0%nat) as [_ [H _]].
  apply (H good_fin 1%nat [120; 100]%float [12; 9]%float 120%float 100%float
           12%float 9%float); reflexivity.
Defined.

(* ================================================================= *)
(** ** Trend scorer *)

Lemma trend_score_run {W} (P : Provider W) (tk : string) (w w' : W)
    (data : DataFrame) (close : Series) :
  yf_download P tk w = (Ok data, w') -> empty data = false ->
  getitem data "Close" = Ok close ->
  trend_score P tk w
  = (Ok (if float_gt (last close nan) (last (rolling_mean 20 close) nan)
         then (10, "Uptrend") else (-10, "Downtrend")), w').
Proof.
  intros Hdata He Hclose. unfold trend_score. run.
  rewrite Hdata, He, Hclose.
  pose proof (getitem_nonempty _ _ _ He Hclose) as Hne.
  rewrite (iloc_last_rolling_mean 20 close Hne).
  destruct close as [|c close]; [congruence|]. cbn [iloc_last].
  now destruct (float_gt _ _).
Qed.



(** A flat series: the latest close equals its moving average. *)
Example trend_score_flat :
  let P := {| requests_get := requests_get sample_provider;
              html_parser := html_parser sample_provider;
              yf_financials := yf_financials sample_provider;
              yf_download := fun _ w => (Ok (flat_prices 30), w) |} in
  trend_score P "FLAT" 0%nat = (Ok (-10, "Downtrend"), 0%nat).
Proof. reflexivity. Qed.

(** C6. For every price table with at least one and fewer than 20 rows and
    a Close column, the trend scorer returns (-10, "Downtrend"): the rolling
    mean at the last position is NaN, the comparison with NaN is false, and
    the else branch is taken; no exception is raised and the "Trend error"
    fallback is not used. *)
Theorem trend_score_short_series {W} (P : Provider W) (tk : string) (w w' : W)
    (data : DataFrame) (close : Series) :
  yf_download P tk w = (Ok data, w') ->
  empty data = false ->
  (List.length (index data) < 20)%nat ->
  getitem data "Close" = Ok close ->
  iloc_last (rolling_mean 20 close) = Ok nan
  /\ float_gt (last close nan) nan = false
  /\ trend_score P tk w = (Ok (-10, "Downtrend"), w').
Proof.
  intros Hdata He Hlen Hclose.
  pose proof (getitem_length _ _ _ Hclose) as Hl.
  pose proof (getitem_nonempty _ _ _ He Hclose) as Hne.
  assert (Hnan : last (rolling_mean 20 close) nan = nan)
    by (apply rolling_mean_short; [assumption | lia]).
  repeat split.
  - rewrite iloc_last_rolling_mean by assumption.
    now rewrite Hnan.
  - apply float_gt_nan_r.
  - rewrite (trend_score_run P tk w w' data close Hdata He Hclose), Hnan.
    now rewrite float_gt_nan_r.
Qed.

Lemma trend_score_short_series_witness :
  trend_score sample_provider "THIN" 0%nat = (Ok (-10, "Downtrend"), 1%nat).
Proof.
  apply (trend_score_short_series sample_provider "THIN" 0%nat 1%nat
           (rising_prices 5)
           (map (fun i => float_of_int (100 + Z.of_nat i)) (seq 0 5)));
    try reflexivity.
  cbn. lia.
Defined.

(* ================================================================= *)
(** ** Failures stop at each component *)

Lemma loc_length (df : DataFrame) (label : string) (s : Series) :
  loc df label = Ok s -> List.length s = List.length (columns df).
Proof.
  unfold loc. destruct (position label (index df)); [|discriminate].
  intros [= <-]. now rewrite length_map, length_seq.
Qed.

Lemma iloc_out_of_range (s : Series) (i : nat) :
  (List.length s <= i)%nat -> iloc s i = Raise IndexError.
Proof.
  intros H. unfold iloc. apply nth_error_None in H. now rewrite H.
Qed.

Lemma find_all_limit (name : string) (limit : nat) (soup : list Element) :
  (List.length (find_all name limit soup) <= limit)%nat.
Proof. unfold find_all. rewrite length_firstn. lia. Qed.

Lemma fetch_news_total {W} (P : Provider W) (tk : string) (w : W) :
  exists headlines w',
    fetch_news P tk w = (Ok headlines, w') /\ (List.length headlines <= 5)%nat.
Proof.
  unfold fetch_news. run.
  destruct (requests_get P (quote_url tk) w) as [[html|e] w'].
  - destruct (html_parser P html) as [soup|e].
    + eexists _, _. split; [reflexivity|].
      rewrite length_map. apply find_all_limit.
    + exists [], w'. split; [reflexivity | cbn; lia].
  - exists [], w'. split; [reflexivity | cbn; lia].
Qed.

Lemma trend_score_total {W} (P : Provider W) (tk : string) (w : W) :
  exists score reason w',
    trend_score P tk w = (Ok (score, reason), w')
    /\ (score = -10 \/ score = 0 \/ score = 10).
Proof.
  unfold trend_score. run.
  destruct (yf_download P tk w) as [[data|e] w']; [|eauto 8].
  destruct (empty data); [eauto 8|].
  destruct (getitem data "Close") as [close|e]; [|eauto 8].
  destruct (iloc_last close) as [price|e]; [|eauto 8].
  destruct (iloc_last (rolling_mean 20 close)) as [ma20|e]; [|eauto 8].
  destruct (float_gt price ma20); eauto 8.
Qed.

Lemma sentiment_sum_bounds (headlines : list string) :
  - 7 * Z.of_nat (List.length headlines)
  <= py_sum (map sentiment_score headlines)
  <= 7 * Z.of_nat (List.length headlines).
Proof.
  induction headlines as [|h hs IH]; [cbn; lia|].
  cbn [map]. rewrite py_sum_cons. pose proof (sentiment_score_bounds h).
  cbn [List.length]. lia.
Qed.

Lemma result_of_well_scored (tk : string) (headlines : list string)
    (f t : Z * string) (w : Weights) :
  (List.length headlines <= 5)%nat ->
  (fst f = -20 \/ fst f = 0 \/ fst f = 20) ->
  (fst t = -10 \/ fst t = 0 \/ fst t = 10) ->
  well_scored w (result_of tk (news_score_of headlines) f t w).
Proof.
  intros Hh Hf Ht. destruct f as [f_score f_reason], t as [t_score t_reason].
  cbn [fst] in *. unfold well_scored, result_of, round_int.
  cbn [news fund trend final_score signal]. repeat split.
  - exists (py_sum (map sentiment_score headlines)).
    pose proof (sentiment_sum_bounds headlines). unfold news_score_of. lia.
  - cbn [In]. intuition.
  - cbn [In]. intuition.
Qed.

(** One turn of the loop: the three components answer in turn, each
    without raising, and the record is built from their answers. *)
Lemma scan_ticker_total {W} (P : Provider W) (wts : Weights) (tk : string) (w : W) :
  exists headlines f t w1 w2 w',
    fetch_news P tk w = (Ok headlines, w1)
    /\ fundamental_score P tk w1 = (Ok f, w2)
    /\ trend_score P tk w2 = (Ok t, w')
    /\ scan_ticker P wts tk w
       = (Ok (result_of tk (news_score_of headlines) f t wts), w')
    /\ well_scored wts (result_of tk (news_score_of headlines) f t wts).
Proof.
  destruct (fetch_news_total P tk w) as (hs & w1 & Hn & Hlen).
  destruct (fundamental_score_total P tk w1) as (fs & fr & w2 & Hf & Hfs).
  destruct (trend_score_total P tk w2) as (ts & tr & w' & Ht & Hts).
  exists hs, (fs, fr), (ts, tr), w1, w2, w'.
  split; [exact Hn|]. split; [exact Hf|]. split; [exact Ht|]. split.
  - unfold scan_ticker. unfold bind at 1. rewrite Hn.
    unfold bind at 1. rewrite Hf. unfold bind at 1. rewrite Ht. reflexivity.
  - apply result_of_well_scored; assumption.
Qed.

Lemma ticker_result_of (tk : string) (n : Z) (f t : Z * string) (w : Weights) :
  ticker (result_of tk n f t w) = tk.
Proof. now destruct f, t. Qed.

(** The loop appends one well-scored record per ticker, in order. *)
Lemma scan_loop_total {W} (P : Provider W) (wts : Weights) (tickers : list string) :
  forall (results : list ScanResult) (w : W),
  exists rs w',
    scan_loop P wts tickers results w = (Ok (results ++ rs)%list, w')
    /\ map ticker rs = tickers
    /\ Forall (well_scored wts) rs.
Proof.
  induction tickers as [|tk rest IH]; intros results w.
  - exists [], w. cbn. now rewrite app_nil_r.
  - destruct (scan_ticker_total P wts tk w)
      as (hs & f & t & w1 & w2 & w3 & _ & _ & _ & Hr & Hok).
    destruct (IH (results ++ [result_of tk (news_score_of hs) f t wts])%list w3)
      as (rs & w' & Hrs & Htk & Hall).
    exists (result_of tk (news_score_of hs) f t wts :: rs), w'.
    cbn [scan_loop]. unfold bind at 1. rewrite Hr, Hrs.
    rewrite <- app_assoc. cbn [app map]. rewrite ticker_result_of, Htk.
    repeat split. now constructor.
Qed.

Lemma scan_total {W} (P : Provider W) (wts : Weights) (tickers : list string) (w : W) :
  exists rs w',
    scan P wts tickers w = (Ok rs, w')
    /\ map ticker rs = tickers
    /\ Forall (well_scored wts) rs.
Proof. exact (scan_loop_total P wts tickers [] w). Qed.

Lemma fetch_news_raise {W} (P : Provider W) (tk : string) (w w' : W) (e : exn) :
  requests_get P (quote_url tk) w = (Raise e, w') ->
  fetch_news P tk w = (Ok [], w').
Proof. intros H. unfold fetch_news. run. now rewrite H. Qed.

Lemma fetch_news_parse_raise {W} (P : Provider W) (tk : string) (w w' : W)
    (html : string) (e : exn) :
  requests_get P (quote_url tk) w = (Ok html, w') ->
  html_parser P html = Raise e ->
  fetch_news P tk w = (Ok [], w').
Proof. intros H1 H2. unfold fetch_news. run. now rewrite H1, H2. Qed.

Lemma fetch_news_run {W} (P : Provider W) (tk : string) (w w' : W)
    (html : string) (soup : list Element) :
  requests_get P (quote_url tk) w = (Ok html, w') ->
  html_parser P html = Ok soup ->
  fetch_news P tk w = (Ok (map text (find_all "h3" 5 soup)), w').
Proof. intros H1 H2. unfold fetch_news. run. now rewrite H1, H2. Qed.

Lemma fundamental_score_raise {W} (P : Provider W) (tk : string) (w w' : W) (e : exn) :
  yf_financials P tk w = (Raise e, w') ->
  fundamental_score P tk w = (Ok (0, "Financial analysis error"), w').
Proof. intros H. unfold fundamental_score. run. now rewrite H. Qed.

Lemma fundamental_score_lookup_raise {W} (P : Provider W) (tk : string) (w w' : W)
    (fin : DataFrame) :
  yf_financials P tk w = (Ok fin, w') -> empty fin = false ->
  (exists e, loc fin "Total Revenue" = Raise e)
  \/ (exists e, loc fin "Net Income" = Raise e)
  \/ (List.length (columns fin) < 2)%nat ->
  fundamental_score P tk w = (Ok (0, "Financial analysis error"), w').
Proof.
  intros Hfin He Hfail. unfold fundamental_score. run. rewrite Hfin, He.
  destruct (loc fin "Total Revenue") as [rev|e] eqn:Hrev; [|reflexivity].
  destruct (loc fin "Net Income") as [ni|e] eqn:Hni; [|reflexivity].
  destruct Hfail as [[e H] | [[e H] | Hlen]]; try discriminate H.
  rewrite !iloc_upto_2 by lia.
  apply loc_length in Hrev.
  rewrite (iloc_out_of_range rev 1) by lia.
  now destruct (iloc rev 0).
Qed.

Lemma trend_score_raise {W} (P : Provider W) (tk : string) (w w' : W) (e : exn) :
  yf_download P tk w = (Raise e, w') ->
  trend_score P tk w = (Ok (0, "Trend error"), w').
Proof. intros H. unfold trend_score. run. now rewrite H. Qed.

Lemma trend_score_lookup_raise {W} (P : Provider W) (tk : string) (w w' : W)
    (data : DataFrame) (e : exn) :
  yf_download P tk w = (Ok data, w') -> empty data = false ->
  getitem data "Close" = Raise e ->
  trend_score P tk w = (Ok (0, "Trend error"), w').
Proof. intros H1 H2 H3. unfold trend_score. run. now rewrite H1, H2, H3. Qed.

(** C7. Every component that fetches data stops every failure at its own
    boundary and answers a fixed default instead: the headline collector
    always returns a list of at most 5 headlines (the texts of the first
    five [h3] elements), and the empty list when the request or the parser
    fails; the fundamental scorer always returns, and returns
    (0, "Financial analysis error") when the retrieval fails, a row is
    missing or there are fewer than two figures; the trend scorer always
    returns, and returns (0, "Trend error") when the retrieval fails or the
    Close column is missing; so for every list of tickers, in every world,
    the scan returns a list with one record per ticker and never fails. *)
Theorem failures_stop_at_each_component {W} (P : Provider W) (wts : Weights) :
  (forall tk w,
      (exists headlines w',
          fetch_news P tk w = (Ok headlines, w')
          /\ (List.length headlines <= 5)%nat)
      /\ (forall e w', requests_get P (quote_url tk) w = (Raise e, w') ->
                       fetch_news P tk w = (Ok [], w'))
      /\ (forall html e w', requests_get P (quote_url tk) w = (Ok html, w') ->
                            html_parser P html = Raise e ->
                            fetch_news P tk w = (Ok [], w'))
      /\ (forall html soup w', requests_get P (quote_url tk) w = (Ok html, w') ->
                               html_parser P html = Ok soup ->
                               fetch_news P tk w
                               = (Ok (map text (find_all "h3" 5 soup)), w')))
  /\ (forall tk w,
      (exists score reason w', fundamental_score P tk w = (Ok (score, reason), w'))
      /\ (forall e w', yf_financials P tk w = (Raise e, w') ->
                       fundamental_score P tk w
                       = (Ok (0, "Financial analysis error"), w'))
      /\ (forall fin w', yf_financials P tk w = (Ok fin, w') -> empty fin = false ->
                         (exists e, loc fin "Total Revenue" = Raise e)
                         \/ (exists e, loc fin "Net Income" = Raise e)
                         \/ (List.length (columns fin) < 2)%nat ->
                         fundamental_score P tk w
                         = (Ok (0, "Financial analysis error"), w')))
  /\ (forall tk w,
      (exists score reason w', trend_score P tk w = (Ok (score, reason), w'))
      /\ (forall e w', yf_download P tk w = (Raise e, w') ->
                       trend_score P tk w = (Ok (0, "Trend error"), w'))
      /\ (forall data e w', yf_download P tk w = (Ok data, w') ->
                            empty data = false ->
                            getitem data "Close" = Raise e ->
                            trend_score P tk w = (Ok (0, "Trend error"), w')))
  /\ (forall tickers w,
      exists results w',
        scan P wts tickers w = (Ok results, w')
        /\ List.length results = List.length tickers).
Proof.
  split; [|split; [|split]].
  - intros tk w. split; [apply fetch_news_total|]. split; [|split].
    + intros e w'. apply fetch_news_raise.
    + intros html e w'. apply fetch_news_parse_raise.
    + intros html soup w'. apply fetch_news_run.
  - intros tk w. split; [|split].
    + destruct (fundamental_score_total P tk w) as (s & r & w' & H & _). eauto.
    + intros e w'. apply fundamental_score_raise.
    + intros fin w'. apply fundamental_score_lookup_raise.
  - intros tk w. split; [|split].
    + destruct (trend_score_total P tk w) as (s & r & w' & H & _). eauto.
    + intros e w'. apply trend_score_raise.
    + intros data e w' H1 H2 H3. eapply trend_score_lookup_raise; eassumption.
  - intros tickers w.
    destruct (scan_total P wts tickers w) as (rs & w' & H & Htk & _).
    exists rs, w'. split; [exact H|]. now rewrite <- Htk, length_map.
Qed.

(** The scan of a reachable, a thin, an empty and an unreachable ticker. *)
Example scan_sample_defaults :
  exists r1 r2 r3 r4 w',
    scan sample_provider default_weights ["AAPL"; "THIN"; "VOID"; "XYZ"] 0%nat
    = (Ok [r1; r2; r3; r4], w')
    /\ (fund_reason r1, trend_reason r1)
       = ("Revenue growing, Net income improving", "Uptrend")
    /\ (fund_reason r2, trend_reason r2) = ("Financial analysis error", "Downtrend")
    /\ (fund_reason r3, trend_reason r3) = ("No financials", "No data")
    /\ (news r4, fund r4, fund_reason r4, trend r4, trend_reason r4)
       = (0, 0, "Financial analysis error", 0, "Trend error").
Proof.
  eexists _, _, _, _, _. split; [vm_compute; reflexivity|].
  cbn [news fund fund_reason trend trend_reason]. repeat split.
Qed.

(* ================================================================= *)
(** ** One record per ticker *)

(** The records already collected stay in front: the loop only appends. *)
Lemma scan_loop_appends {W} (P : Provider W) (wts : Weights) (tickers : list string) :
  forall (results : list ScanResult) (w : W),
    scan_loop P wts tickers results w
    = match scan_loop P wts tickers [] w with
      | (Ok rs, w') => (Ok (results ++ rs)%list, w')
      | (Raise e, w') => (Raise e, w')
      end.
Proof.
  induction tickers as [|tk rest IH]; intros results w.
  - cbn. now rewrite app_nil_r.
  - cbn [scan_loop]. unfold bind.
    destruct (scan_ticker P wts tk w) as [[r|e] w1]; [|reflexivity].
    rewrite (IH (results ++ [r])%list), (IH ([] ++ [r])%list).
    destruct (scan_loop P wts rest [] w1) as [[rs|e] w']; [|reflexivity].
    now rewrite <- app_assoc.
Qed.

(** A scan is a sequence of turns: the turn of the first ticker, then the
    scan of the others from the world that turn left. *)
Lemma scan_cons {W} (P : Provider W) (wts : Weights) (tk : string)
    (rest : list string) (w w1 w' : W) (r : ScanResult) (rs : list ScanResult) :
  scan_ticker P wts tk w = (Ok r, w1) ->
  scan P wts rest w1 = (Ok rs, w') ->
  scan P wts (tk :: rest) w = (Ok (r :: rs), w').
Proof.
  intros Hr Hrs. unfold scan in *. cbn [scan_loop]. unfold bind at 1.
  rewrite Hr, (scan_loop_appends P wts rest ([] ++ [r])%list w1), Hrs.
  reflexivity.
Qed.

(** C8. For every list of tickers, in every world, one scan returns exactly
    one record per ticker, in the order of the list: the tickers of the
    records are the list itself, so none is left out, repeated or moved; the
    record of the first ticker comes first, followed by the scan of the
    others; the scan of the empty list returns the empty list. *)
Theorem scan_one_record_per_ticker {W} (P : Provider W) (wts : Weights)
    (tickers : list string) (w : W) :
  (exists results w',
      scan P wts tickers w = (Ok results, w')
      /\ map ticker results = tickers
      /\ List.length results = List.length tickers)
  /\ (forall tk rest r w1 rs w',
      tickers = tk :: rest ->
      scan_ticker P wts tk w = (Ok r, w1) ->
      scan P wts rest w1 = (Ok rs, w') ->
      scan P wts tickers w = (Ok (r :: rs), w'))
  /\ scan P wts [] w = (Ok [], w).
Proof.
  split; [|split; [|reflexivity]].
  - destruct (scan_total P wts tickers w) as (rs & w' & H & Htk & _).
    exists rs, w'. repeat split; try assumption.
    now rewrite <- Htk, length_map.
  - intros tk rest r w1 rs w' -> Hr Hrs. exact (scan_cons P wts tk rest w w1 w' r rs Hr Hrs).
Qed.

Example scan_sector_list (str_upper : string -> string) :
  exists results w',
    scan sample_provider default_weights (tickers_of str_upper SectorScan) 0%nat
    = (Ok results, w')
    /\ map ticker results = sector_list.
Proof.
  cbn [tickers_of]. eexists _, _. split.
  - vm_compute. reflexivity.
  - vm_compute. reflexivity.
Qed.

(* ================================================================= *)
(** ** Final score and signal *)

(** Every record of every scan: the scores are those of the three scorers
    for the ticker, the final score is the blend rounded to two decimals,
    and the signal is the class of the blend before it is rounded. *)
Lemma scan_results_well_scored {W} (P : Provider W) (wts : Weights)
    (tickers : list string) (w : W) :
  exists results w',
    scan P wts tickers w = (Ok results, w')
    /\ forall r, In r results ->
         final_score r = round_float (final (news r) (fund r) (trend r) wts) 2
         /\ signal r = classify (final (news r) (fund r) (trend r) wts).
Proof.
  destruct (scan_total P wts tickers w) as (rs & w' & H & _ & Hall).
  exists rs, w'. split; [exact H|]. intros r Hr.
  rewrite Forall_forall in Hall. now destruct (Hall r Hr) as (_ & _ & _ & ? & ?).
Qed.

(** The news score of a record is five times the sum of the sentiment
    scores of the headlines collected for its ticker. *)
Lemma scan_ticker_news_score {W} (P : Provider W) (wts : Weights) (tk : string) (w : W) :
  exists headlines w1 r w',
    fetch_news P tk w = (Ok headlines, w1)
    /\ scan_ticker P wts tk w = (Ok r, w')
    /\ news r = py_sum (map sentiment_score headlines) * 5.
Proof.
  destruct (scan_ticker_total P wts tk w)
    as (hs & f & t & w1 & w2 & w' & Hn & _ & _ & Hr & _).
  exists hs, w1, (result_of tk (news_score_of hs) f t wts), w'.
  repeat split; try assumption. now destruct f, t.
Qed.

(** In exact arithmetic the blend is a whole number of fiftieths, so it has
    at most two decimals and rounding it to two decimals changes nothing:
    there the class of the blend and the class of the rounded blend agree. *)
Lemma final_exact_fiftieths (n f t : Z) (w : Weights) :
  (final_exact n f t w
   == inject_Z (n * w_news w + f * w_fund w + t * w_trend w) / 50)%Q.
Proof.
  unfold final_exact. rewrite !inject_Z_plus, !inject_Z_mult. field.
Qed.

(** The scenario of the spec: scores (5, 20, 10) under weights (20, 20, 20). *)
Example final_score_scenario :
  final 5 20 10 default_weights = 14%float
  /\ round_float (final 5 20 10 default_weights) 2 = 14%float
  /\ repr_2dp (round_float (final 5 20 10 default_weights) 2) = "14.0"
  /\ classify (final 5 20 10 default_weights) = BEARISH
  /\ exists r w',
       scan sample_provider default_weights ["AAPL"] 0%nat = (Ok [r], w')
       /\ (news r, fund r, trend r) = (5, 20, 10)
       /\ final_score r = 14%float /\ signal r = BEARISH.
Proof.
  do 4 (split; [vm_compute; reflexivity|]).
  eexists _, _. split; [vm_compute; reflexivity|]. repeat split.
Qed.

(** What the scan loop computes for a ticker.  In every world and under
    every weight triple the headline collector, the fundamental scorer and
    the trend scorer answer in turn; the news score of the record is the sum
    of the sentiment scores of the headlines times 5; the final score of the
    record is
    news_score*(w_news/50) + f_score*(w_fund/50) + t_score*(w_trend/50),
    computed in binary64 and rounded to 2 decimals; and the signal of the
    record is the classifier applied to the blend before it is rounded.
    This holds of every record of every scan.  With the scores (5, 20, 10)
    and the weights (20, 20, 20) the final score is 14.0 and the signal is
    BEARISH. *)
Theorem scan_final_score_and_signal {W} (P : Provider W) (wts : Weights) :
  (forall tk w,
      exists headlines w1 f_score f_reason w2 t_score t_reason w' r,
        fetch_news P tk w = (Ok headlines, w1)
        /\ fundamental_score P tk w1 = (Ok (f_score, f_reason), w2)
        /\ trend_score P tk w2 = (Ok (t_score, t_reason), w')
        /\ scan_ticker P wts tk w = (Ok r, w')
        /\ let news_score := py_sum (map sentiment_score headlines) * 5 in
           let blend := final news_score f_score t_score wts in
           news r = news_score /\ fund r = f_score /\ trend r = t_score
           /\ final_score r = round_float blend 2
           /\ signal r = classify blend)
  /\ (forall tickers w,
      exists results w',
        scan P wts tickers w = (Ok results, w')
        /\ forall r, In r results ->
             final_score r = round_float (final (news r) (fund r) (trend r) wts) 2
             /\ signal r = classify (final (news r) (fund r) (trend r) wts))
  /\ final 5 20 10 default_weights = 14%float
  /\ round_float (final 5 20 10 default_weights) 2 = 14%float
  /\ classify (final 5 20 10 default_weights) = BEARISH
  /\ label_name BEARISH = "BEARISH".
Proof.
  split; [|split; [apply scan_results_well_scored|]].
  - intros tk w.
    destruct (scan_ticker_total P wts tk w)
      as (hs & [fs fr] & [ts tr] & w1 & w2 & w' & Hn & Hf & Ht & Hr & _).
    exists hs, w1, fs, fr, w2, ts, tr, w',
      (result_of tk (news_score_of hs) (fs, fr) (ts, tr) wts).
    do 4 (split; [assumption|]). cbv zeta. repeat split.
  - repeat split; vm_compute; reflexivity.
Qed.

(** C2.  The signal of a record is not always the class of its final
    score: the program classifies the blend before rounding it, and stores
    the rounded blend.  The ticker AAPL with the headline
    "AAPL beats estimates", growing revenue and income and an uptrend has
    the scores (5, 20, 10).  Under the weights (20, 47, 21), each in [0,50],
    the blend is 25 in exact arithmetic; computed in binary64, as the
    program does, it is 24.999999999999996.  The record of the scan has the
    final score 25.0, whose class is NEUTRAL, and the signal BEARISH. *)
Lemma scan_signal_is_not_class_of_final_score :
  let wts := {| w_news := 20; w_fund := 47; w_trend := 21 |} in
  valid_weights wts
  /\ (final_exact 5 20 10 wts == 25)%Q
  /\ final 5 20 10 wts = 0x1.8ffffffffffffp+4%float
  /\ exists r w',
       scan sample_provider wts ["AAPL"] 0%nat = (Ok [r], w')
       /\ (news r, fund r, trend r) = (5, 20, 10)
       /\ final_score r = 25%float
       /\ classify (final_score r) = NEUTRAL
       /\ signal r = BEARISH
       /\ signal r <> classify (final_score r).
Proof.
  cbv zeta. split; [unfold valid_weights, slider_range; cbn; lia|].
  split; [reflexivity|]. split; [reflexivity|].
  eexists _, _. split; [vm_compute; reflexivity|].
  cbn [news fund trend final_score signal].
  do 4 (split; [reflexivity|]). vm_compute. discriminate.
Qed.

(* ================================================================= *)
(** ** Linearity of the blend in each weight

    The scores of a scan are few: a news score between -175 and 175, a
    fundamental score among -20, 0, 20 and a trend score among -10, 0, 10;
    and a weight is one of 0..50.  The facts below are checked on every term
    such scores and weights produce. *)

Lemma in_zrange (lo x : Z) (n : nat) :
  lo <= x < lo + Z.of_nat n -> In x (zrange lo n).
Proof.
  intros H. unfold zrange. apply in_map_iff.
  exists (Z.to_nat (x - lo)). split; [lia|]. apply in_seq. lia.
Qed.

Lemma in_terms (scores : list Z) (s wt : Z) :
  In s scores -> slider_range wt -> In (term s wt) (terms scores).
Proof.
  intros Hs Hw. unfold terms. apply in_flat_map. exists s. split; [exact Hs|].
  apply in_map. apply in_zrange. unfold slider_range in Hw. lia.
Qed.

Lemma is_a_zero_in_zeros (x : float) : is_a_zero x = true -> In x zeros.
Proof.
  unfold is_a_zero, zeros. rewrite orb_true_iff, !Leibniz.eqb_spec.
  cbn [In]. intuition.
Qed.

Lemma term_weight_0 (s : Z) : -175 <= s <= 175 -> In (term s 0) zeros.
Proof.
  intros H. apply is_a_zero_in_zeros.
  assert (Hall : forallb (fun s => is_a_zero (term s 0)) (zrange (-175) 351) = true)
    by (vm_compute; reflexivity).
  rewrite forallb_forall in Hall. apply Hall. apply in_zrange. lia.
Qed.

Lemma zero_plus_two_terms (z b c : float) :
  In z zeros -> In b fund_terms -> In c trend_terms ->
  (z + b + c =? b + c)%float = true.
Proof.
  assert (Hall : forallb (fun z => forallb (fun b => forallb (fun c =>
      (z + b + c =? b + c)%float) trend_terms) fund_terms) zeros = true)
    by (vm_compute; reflexivity).
  intros Hz Hb Hc. rewrite forallb_forall in Hall. specialize (Hall z Hz).
  rewrite forallb_forall in Hall. specialize (Hall b Hb).
  rewrite forallb_forall in Hall. exact (Hall c Hc).
Qed.

Lemma term_plus_zero_plus_term (a z c : float) :
  In a news_terms -> In z zeros -> In c trend_terms ->
  (a + z + c =? a + c)%float = true.
Proof.
  assert (Hall : forallb (fun a => forallb (fun z => forallb (fun c =>
      (a + z + c =? a + c)%float) trend_terms) zeros) news_terms = true)
    by (vm_compute; reflexivity).
  intros Ha Hz Hc. rewrite forallb_forall in Hall. specialize (Hall a Ha).
  rewrite forallb_forall in Hall. specialize (Hall z Hz).
  rewrite forallb_forall in Hall. exact (Hall c Hc).
Qed.

Lemma two_terms_plus_zero (a b z : float) :
  In a news_terms -> In b fund_terms -> In z zeros ->
  (a + b + z =? a + b)%float = true.
Proof.
  assert (Hall : forallb (fun a => forallb (fun b => forallb (fun z =>
      (a + b + z =? a + b)%float) zeros) fund_terms) news_terms = true)
    by (vm_compute; reflexivity).
  intros Ha Hb Hz. rewrite forallb_forall in Hall. specialize (Hall a Ha).
  rewrite forallb_forall in Hall. specialize (Hall b Hb).
  rewrite forallb_forall in Hall. exact (Hall z Hz).
Qed.

Lemma term_double_weight (s wt : Z) :
  -175 <= s <= 175 -> 0 <= wt <= 25 ->
  term s (2 * wt) = (2 * term s wt)%float.
Proof.
  assert (Hall : forallb (fun s => forallb (fun wt =>
      Leibniz.eqb (term s (2 * wt)) (2 * term s wt)%float)
      (zrange 0 26)) (zrange (-175) 351) = true)
    by (vm_compute; reflexivity).
  intros Hs Hw. rewrite forallb_forall in Hall.
  specialize (Hall s (in_zrange (-175) s 351 ltac:(lia))).
  rewrite forallb_forall in Hall.
  specialize (Hall wt (in_zrange 0 wt 26 ltac:(lia))).
  now apply Leibniz.eqb_spec.
Qed.

(** C10. The blend is the sum of three terms, each the product of one score
    and its weight over 50.  For all scores a scan can produce and all
    weights from 0 to 50: with a weight set to 0 the blend equals the blend
    of the two other terms alone, whatever the score of the term removed;
    and doubling the news weight (within 0..50) exactly doubles the news
    term, the two other terms being unchanged. *)
Theorem final_linear_in_each_weight (n f t : Z) (w : Weights) :
  -175 <= n <= 175 -> In f [-20; 0; 20] -> In t [-10; 0; 10] ->
  valid_weights w ->
  let wn := w_news w in
  let wf := w_fund w in
  let wt := w_trend w in
  final n f t w = (term n wn + term f wf + term t wt)%float
  /\ (final n f t {| w_news := 0; w_fund := wf; w_trend := wt |}
      =? term f wf + term t wt)%float = true
  /\ (final n f t {| w_news := wn; w_fund := 0; w_trend := wt |}
      =? term n wn + term t wt)%float = true
  /\ (final n f t {| w_news := wn; w_fund := wf; w_trend := 0 |}
      =? term n wn + term f wf)%float = true
  /\ (2 * wn <= 50 ->
      term n (2 * wn) = (2 * term n wn)%float
      /\ final n f t {| w_news := 2 * wn; w_fund := wf; w_trend := wt |}
         = (2 * term n wn + term f wf + term t wt)%float).
Proof.
  intros Hn Hf Ht (Hwn & Hwf & Hwt) wn wf wt.
  assert (Ha : In (term n wn) news_terms)
    by (apply in_terms; [apply in_zrange; lia | assumption]).
  assert (Hb : In (term f wf) fund_terms) by (now apply in_terms).
  assert (Hc : In (term t wt) trend_terms) by (now apply in_terms).
  assert (Hf' : -175 <= f <= 175) by (cbn [In] in Hf; lia).
  assert (Ht' : -175 <= t <= 175) by (cbn [In] in Ht; lia).
  split; [reflexivity|].
  split.
  { apply (zero_plus_two_terms (term n 0) (term f wf) (term t wt));
      [apply term_weight_0; lia | exact Hb | exact Hc]. }
  split.
  { apply (term_plus_zero_plus_term (term n wn) (term f 0) (term t wt));
      [exact Ha | apply term_weight_0; lia | exact Hc]. }
  split.
  { apply (two_terms_plus_zero (term n wn) (term f wf) (term t 0));
      [exact Ha | exact Hb | apply term_weight_0; lia]. }
  intros H2. unfold slider_range in Hwn.
  assert (Hd : term n (2 * wn) = (2 * term n wn)%float)
    by (apply term_double_weight; fold wn in Hwn; lia).
  split; [exact Hd|]. unfold final. cbn [w_news w_fund w_trend].
  fold (term n (2 * wn)) (term f wf) (term t wt). now rewrite Hd.
Qed.

Lemma final_linear_in_each_weight_witness :
  (final 5 20 10 {| w_news := 0; w_fund := 20; w_trend := 20 |}
   =? term 20 20 + term 10 20)%float = true.
Proof.
  apply (final_linear_in_each_weight 5 20 10 default_weights).
  - lia.
  - cbn [In]. auto.
  - cbn [In]. auto.
  - unfold valid_weights, slider_range. cbn. lia.
Defined.

(* ================================================================= *)
(** ** Report builder *)

Lemma append_nil_r (s : string) : s ++ "" = s.
Proof. induction s as [|c s IH]; cbn; [reflexivity | now rewrite IH]. Qed.

Lemma append_assoc (s1 s2 s3 : string) : (s1 ++ s2) ++ s3 = s1 ++ s2 ++ s3.
Proof. induction s1 as [|c s1 IH]; cbn; [reflexivity | now rewrite IH]. Qed.

Lemma concat_cons (x : string) (xs : list string) :
  String.concat "" (x :: xs) = x ++ String.concat "" xs.
Proof. destruct xs; cbn [String.concat append]; [now rewrite append_nil_r | reflexivity]. Qed.

Lemma fold_append (pieces : list string) (html : string) :
  fold_left String.append pieces html = html ++ String.concat "" pieces.
Proof.
  revert html. induction pieces as [|p ps IH]; intros html.
  - cbn. now rewrite append_nil_r.
  - cbn [fold_left]. now rewrite IH, concat_cons, append_assoc.
Qed.

Section ReportProperties.

Variable repr_float : float -> string.

Lemma report_step_appends_block (html : string) (r : ScanResult) :
  report_step repr_float html r = html ++ report_block repr_float r.
Proof. apply fold_append. Qed.

Lemma generate_report_from (results : list ScanResult) (html : string) :
  fold_left (report_step repr_float) results html
  = html ++ String.concat "" (map (report_block repr_float) results).
Proof.
  revert html. induction results as [|r rs IH]; intros html.
  - cbn. now rewrite append_nil_r.
  - cbn [fold_left map].
    now rewrite IH, report_step_appends_block, concat_cons, append_assoc.
Qed.

Lemma concat_app (xs ys : list string) :
  String.concat "" (xs ++ ys) = String.concat "" xs ++ String.concat "" ys.
Proof.
  induction xs as [|x xs IH]; [reflexivity|].
  cbn [app]. now rewrite !concat_cons, IH, append_assoc.
Qed.

(** C9. For every sequence of records, the report is the title followed
    by one block per record, in the order of the sequence and nothing
    else; the block of a record is its ticker as a header, its final
    score with its signal, its news score, its fundamental score with the
    reason, its trend score with the reason, and a separator; a longer
    sequence only appends blocks; and the report of the empty sequence is
    the title alone. *)
Theorem generate_report_one_block_per_record (results : list ScanResult) :
  generate_report repr_float results
  = report_title ++ String.concat "" (map (report_block repr_float) results)
  /\ (forall r,
      report_block repr_float r
      = "<h3>" ++ ticker r ++ "</h3>"
        ++ "<p>Score: " ++ repr_float (final_score r) ++ " — " ++ signal r ++ "</p>"
        ++ "<p>News Score: " ++ str_int (news r) ++ "</p>"
        ++ "<p>Fundamentals: " ++ str_int (fund r) ++ " (" ++ fund_reason r ++ ")</p>"
        ++ "<p>Trend: " ++ str_int (trend r) ++ " (" ++ trend_reason r ++ ")</p>"
        ++ "<hr>")
  /\ (forall more,
      generate_report repr_float (results ++ more)
      = generate_report repr_float results
        ++ String.concat "" (map (report_block repr_float) more))
  /\ generate_report repr_float [] = report_title.
Proof.
  split; [apply generate_report_from|]. split; [|split].
  - intros r. unfold report_block, report_pieces.
    rewrite !concat_cons. cbn [String.concat]. now rewrite ?append_assoc, append_nil_r.
  - intros more. unfold generate_report.
    now rewrite !generate_report_from, map_app, concat_app, append_assoc.
  - reflexivity.
Qed.

End ReportProperties.

(** The report of the scan of a reachable and an unreachable ticker. *)
Example generate_report_sample :
  exists results w',
    scan sample_provider default_weights ["AAPL"; "XYZ"] 0%nat = (Ok results, w')
    /\ generate_report repr_2dp results
       = "<h1>Market Scanner Report</h1>"
         ++ "<h3>AAPL</h3><p>Score: 14.0 — 🔻 BEARISH</p><p>News Score: 5</p>"
         ++ "<p>Fundamentals: 20 (Revenue growing, Net income improving)</p>"
         ++ "<p>Trend: 10 (Uptrend)</p><hr>"
         ++ "<h3>XYZ</h3><p>Score: 0.0 — 🛑 STRONG BEARISH</p><p>News Score: 0</p>"
         ++ "<p>Fundamentals: 0 (Financial analysis error)</p>"
         ++ "<p>Trend: 0 (Trend error)</p><hr>".
Proof.
  eexists _, _. split.
  - vm_compute. reflexivity.
  - vm_compute. reflexivity.
Qed.

(* ================================================================= *)
(** * Further properties *)

(* ================================================================= *)
(** ** Sentiment and news score *)

(** X1. The sentiment score of every text lies between -7 and 7, both
    bounds are reached, and a text that contains none of the fourteen terms
    scores 0. *)
Theorem sentiment_score_range :
  (forall t, -7 <= sentiment_score t <= 7)
  /\ (exists t, sentiment_score t = 7)
  /\ (exists t, sentiment_score t = -7)
  /\ (forall t,
      (forall word, In word (positive_words ++ negative_words)%list ->
                    contains word (lower t) = false) ->
      sentiment_score t = 0).
Proof.
  split; [apply sentiment_score_bounds|]. split; [|split].
  - exists "Profit beats and soars: strong growth, shares jump as revenue rises".
    vm_compute. reflexivity.
  - exists "Weak quarter is bad: stock falls, misses, cuts outlook, loss and drop".
    vm_compute. reflexivity.
  - intros t H. unfold sentiment_score. rewrite !py_sum_bool_counts.
    assert (Hnone : forall ws,
               (forall word, In word ws -> contains word (lower t) = false) ->
               filter (fun word => contains word (lower t)) ws = []).
    { induction ws as [|x xs IH]; intros Hx; [reflexivity|].
      cbn [filter]. rewrite (Hx x (or_introl eq_refl)).
      apply IH. intros word Hw. apply Hx. now right. }
    rewrite (Hnone positive_words), (Hnone negative_words); [reflexivity | |];
      intros word Hw; apply H; apply in_or_app; auto.
Qed.

Lemma py_sum_app (xs ys : list Z) : py_sum (xs ++ ys)%list = py_sum xs + py_sum ys.
Proof.
  induction xs as [|x xs IH]; [reflexivity|].
  cbn [app]. rewrite !py_sum_cons, IH. lia.
Qed.

(** X2. The news score is additive over the headlines and does not depend on
    their order: the score of two batches of headlines is the sum of their
    scores, a permutation of the headlines scores the same, and no headline
    scores 0. *)
Theorem news_score_additive :
  (forall hs1 hs2,
      news_score_of (hs1 ++ hs2)%list = news_score_of hs1 + news_score_of hs2)
  /\ (forall hs1 hs2, Permutation hs1 hs2 -> news_score_of hs1 = news_score_of hs2)
  /\ (forall h hs, news_score_of (h :: hs) = 5 * sentiment_score h + news_score_of hs)
  /\ news_score_of [] = 0.
Proof.
  split; [|split; [|split; [|reflexivity]]].
  - intros hs1 hs2. unfold news_score_of. rewrite map_app, py_sum_app. lia.
  - intros hs1 hs2 Hp. unfold news_score_of. f_equal.
    induction Hp as [|x l l' _ IH|x y l|l l' l'' _ IH1 _ IH2].
    + reflexivity.
    + cbn [map]. rewrite !py_sum_cons. lia.
    + cbn [map]. rewrite !py_sum_cons. lia.
    + congruence.
  - intros h hs. unfold news_score_of. cbn [map]. rewrite py_sum_cons. lia.
Qed.

(* ================================================================= *)
(** ** What the scorers answer *)

Ltac pick_answer := cbn [In]; repeat (first [left; reflexivity | right]).

Lemma fundamental_score_in_answers {W} (P : Provider W) (tk : string) (w : W) :
  exists a w', fundamental_score P tk w = (Ok a, w') /\ In a fundamental_answers.
Proof.
  unfold fundamental_score, fundamental_answers. run.
  destruct (yf_financials P tk w) as [[fin|e] w'];
    [|eexists _, _; split; [reflexivity | pick_answer]].
  destruct (empty fin); [eexists _, _; split; [reflexivity | pick_answer]|].
  destruct (loc fin "Total Revenue") as [rev|e];
    [|eexists _, _; split; [reflexivity | pick_answer]].
  destruct (loc fin "Net Income") as [ni|e];
    [|eexists _, _; split; [reflexivity | pick_answer]].
  destruct (iloc (iloc_upto 2 rev) 0) as [rev0|e];
    [|eexists _, _; split; [reflexivity | pick_answer]].
  destruct (iloc (iloc_upto 2 rev) 1) as [rev1|e];
    [|eexists _, _; split; [reflexivity | pick_answer]].
  destruct (float_gt rev0 rev1);
    (destruct (iloc (iloc_upto 2 ni) 0) as [ni0|e];
      [|eexists _, _; split; [reflexivity | pick_answer]]);
    (destruct (iloc (iloc_upto 2 ni) 1) as [ni1|e];
      [|eexists _, _; split; [reflexivity | pick_answer]]);
    destruct (float_gt ni0 ni1);
    eexists _, _; (split; [reflexivity | pick_answer]).
Qed.

Lemma trend_score_in_answers {W} (P : Provider W) (tk : string) (w : W) :
  exists a w', trend_score P tk w = (Ok a, w') /\ In a trend_answers.
Proof.
  unfold trend_score, trend_answers. run.
  destruct (yf_download P tk w) as [[data|e] w'];
    [|eexists _, _; split; [reflexivity | pick_answer]].
  destruct (empty data); [eexists _, _; split; [reflexivity | pick_answer]|].
  destruct (getitem data "Close") as [close|e];
    [|eexists _, _; split; [reflexivity | pick_answer]].
  destruct (iloc_last close) as [price|e];
    [|eexists _, _; split; [reflexivity | pick_answer]].
  destruct (iloc_last (rolling_mean 20 close)) as [ma20|e];
    [|eexists _, _; split; [reflexivity | pick_answer]].
  destruct (float_gt price ma20); eexists _, _; (split; [reflexivity | pick_answer]).
Qed.

(** X3. Whatever the world, the fundamental scorer answers one of six fixed
    pairs of score and reason.  So the reason determines the score, a score
    other than 0 is never given with an error or "No financials", and the
    score is 20 exactly when the reason is "Revenue growing, Net income
    improving" and -20 exactly when it is "Revenue declining, Net income
    declining". *)
Theorem fundamental_score_answers {W} (P : Provider W) (tk : string) (w : W) :
  exists score reason w',
    fundamental_score P tk w = (Ok (score, reason), w')
    /\ In (score, reason) fundamental_answers
    /\ (score = 20 <-> reason = "Revenue growing, Net income improving")
    /\ (score = -20 <-> reason = "Revenue declining, Net income declining")
    /\ (reason = "Financial analysis error" \/ reason = "No financials" -> score = 0).
Proof.
  destruct (fundamental_score_in_answers P tk w) as ([score reason] & w' & H & Hin).
  exists score, reason, w'. split; [exact H|]. split; [exact Hin|].
  unfold fundamental_answers in Hin. cbn [In] in Hin.
  repeat destruct Hin as [Hin|Hin]; try contradiction;
    injection Hin as <- <-; repeat split; intros; try reflexivity;
    try discriminate; try lia;
    match goal with H : _ \/ _ |- _ => destruct H; try discriminate; reflexivity end.
Qed.

(** X4. Whatever the world, the trend scorer answers one of four fixed
    pairs: (0, "No data"), (10, "Uptrend"), (-10, "Downtrend") or
    (0, "Trend error"); a score of 0 always means that no comparison was
    made. *)
Theorem trend_score_answers {W} (P : Provider W) (tk : string) (w : W) :
  exists score reason w',
    trend_score P tk w = (Ok (score, reason), w')
    /\ In (score, reason) trend_answers
    /\ (score = 10 <-> reason = "Uptrend")
    /\ (score = -10 <-> reason = "Downtrend")
    /\ (score = 0 <-> reason = "No data" \/ reason = "Trend error").
Proof.
  destruct (trend_score_in_answers P tk w) as ([score reason] & w' & H & Hin).
  exists score, reason, w'. split; [exact H|]. split; [exact Hin|].
  unfold trend_answers in Hin. cbn [In] in Hin.
  repeat destruct Hin as [Hin|Hin]; try contradiction;
    injection Hin as <- <-; repeat split; intros; try reflexivity;
    try discriminate; try lia; auto;
    match goal with H : _ \/ _ |- _ => destruct H; discriminate end.
Qed.

(* ================================================================= *)
(** ** The scan as a whole *)

Lemma scan_unfold {W} (P : Provider W) (wts : Weights) (tk : string)
    (rest : list string) (w : W) :
  scan P wts (tk :: rest) w
  = match scan_ticker P wts tk w with
    | (Ok r, w1) =>
        match scan P wts rest w1 with
        | (Ok rs, w') => (Ok (r :: rs), w')
        | (Raise e, w') => (Raise e, w')
        end
    | (Raise e, w1) => (Raise e, w1)
    end.
Proof.
  unfold scan. cbn [scan_loop]. unfold bind at 1.
  destruct (scan_ticker P wts tk w) as [[r|e] w1]; [|reflexivity].
  now rewrite (scan_loop_appends P wts rest ([] ++ [r])%list w1).
Qed.

(** What holds of the record of every turn holds of every record of a scan. *)
Lemma scan_Forall {W} (P : Provider W) (wts : Weights) (Q : ScanResult -> Prop) :
  (forall tk w r w', scan_ticker P wts tk w = (Ok r, w') -> Q r) ->
  forall tickers w rs w', scan P wts tickers w = (Ok rs, w') -> Forall Q rs.
Proof.
  intros HQ. induction tickers as [|tk rest IH]; intros w rs w' H.
  - cbn in H. injection H as <- <-. constructor.
  - rewrite scan_unfold in H.
    destruct (scan_ticker P wts tk w) as [[r|e] w1] eqn:Hr; [|discriminate].
    destruct (scan P wts rest w1) as [[rs1|e] w2] eqn:Hrs; [|discriminate].
    injection H as <- <-. constructor; eauto.
Qed.

Lemma scan_ticker_record {W} (P : Provider W) (wts : Weights) (tk : string)
    (w w' : W) (r : ScanResult) :
  scan_ticker P wts tk w = (Ok r, w') ->
  ticker r = tk
  /\ well_scored wts r
  /\ In (fund r, fund_reason r) fundamental_answers
  /\ In (trend r, trend_reason r) trend_answers.
Proof.
  intros H. unfold scan_ticker in H.
  destruct (fetch_news_total P tk w) as (hs & w1 & Hn & Hlen).
  destruct (fundamental_score_in_answers P tk w1) as ([fs fr] & w2 & Hf & Hfa).
  destruct (trend_score_in_answers P tk w2) as ([ts tr] & w3 & Ht & Hta).
  unfold bind at 1 in H. rewrite Hn in H.
  unfold bind at 1 in H. rewrite Hf in H.
  unfold bind at 1 in H. rewrite Ht in H.
  injection H as <- <-. cbn [result_of ticker fund fund_reason trend trend_reason round_int].
  split; [reflexivity|]. split; [|split; assumption].
  apply (result_of_well_scored tk hs (fs, fr) (ts, tr) wts Hlen); cbn [fst].
  - unfold fundamental_answers in Hfa. cbn [In] in Hfa.
    repeat destruct Hfa as [Hfa|Hfa]; try contradiction; injection Hfa as <- _; auto.
  - unfold trend_answers in Hta. cbn [In] in Hta.
    repeat destruct Hta as [Hta|Hta]; try contradiction; injection Hta as <- _; auto.
Qed.

Lemma classify_in_labels (f : float) : In (classify f) labels.
Proof.
  unfold classify, labels.
  destruct (float_ge_int f 60); [cbn; auto|].
  destruct (float_ge_int f 40); [cbn; auto|].
  destruct (float_ge_int f 25); [cbn; auto|].
  destruct (float_ge_int f 10); cbn; auto 6.
Qed.

(** X5. Every record of every scan, in every world and under every
    weights: its news score is a multiple of 5 between -175 and 175, its
    fundamental score and reason are one of the six answers of the
    fundamental scorer, its trend score and reason one of the four answers
    of the trend scorer, and its signal is one of the five labels. *)
Theorem scan_records_invariant {W} (P : Provider W) (wts : Weights)
    (tickers : list string) (w : W) :
  exists results w',
    scan P wts tickers w = (Ok results, w')
    /\ forall r, In r results ->
         -175 <= news r <= 175
         /\ (news r mod 5 = 0)
         /\ In (fund r, fund_reason r) fundamental_answers
         /\ In (trend r, trend_reason r) trend_answers
         /\ In (signal r) labels.
Proof.
  destruct (scan_total P wts tickers w) as (rs & w' & H & _ & _).
  exists rs, w'. split; [exact H|].
  apply Forall_forall. apply (scan_Forall P wts _) with (tickers := tickers) (w := w) (w' := w');
    [|exact H].
  intros tk w0 r w0' Hr.
  destruct (scan_ticker_record P wts tk w0 w0' r Hr)
    as (_ & ((k & Hk & Hnews) & _ & _ & _ & Hsig) & Hfa & Hta).
  repeat split; try assumption; try lia.
  - rewrite Hnews, Z.mul_comm. apply Z.mod_mul. lia.
  - rewrite Hsig. apply classify_in_labels.
Qed.

Lemma term_score_0 (wt : Z) : slider_range wt -> term 0 wt = zero.
Proof.
  intros H. unfold slider_range in H.
  assert (Hall : forallb (fun wt => Leibniz.eqb (term 0 wt) zero) (zrange 0 51) = true)
    by (vm_compute; reflexivity).
  rewrite forallb_forall in Hall. apply Leibniz.eqb_spec.
  apply Hall. apply in_zrange. lia.
Qed.

(** X6. A ticker for which the page request, the statement request and the
    price request all fail still gets a record, under any slider weights: all
    three scores are 0, the reasons are the two error texts, the final score
    is 0.0 and the signal is STRONG BEARISH (not NEUTRAL). *)
Theorem scan_ticker_all_requests_fail {W} (P : Provider W) (wts : Weights)
    (tk : string) (w w1 w2 w3 : W) (e1 e2 e3 : exn) :
  valid_weights wts ->
  requests_get P (quote_url tk) w = (Raise e1, w1) ->
  yf_financials P tk w1 = (Raise e2, w2) ->
  yf_download P tk w2 = (Raise e3, w3) ->
  scan_ticker P wts tk w
  = (Ok {| ticker := tk; news := 0;
           fund := 0; fund_reason := "Financial analysis error";
           trend := 0; trend_reason := "Trend error";
           final_score := 0; signal := STRONG_BEARISH |}, w3).
Proof.
  intros (Hn & Hf & Ht) H1 H2 H3. unfold scan_ticker.
  unfold bind at 1. rewrite (fetch_news_raise P tk w w1 e1 H1).
  unfold bind at 1. rewrite (fundamental_score_raise P tk w1 w2 e2 H2).
  unfold bind at 1. rewrite (trend_score_raise P tk w2 w3 e3 H3).
  unfold ret, result_of, round_int.
  change (news_score_of []) with 0.
  assert (Hfinal : final 0 0 0 wts = zero).
  { change (final 0 0 0 wts)
      with (term 0 (w_news wts) + term 0 (w_fund wts) + term 0 (w_trend wts))%float.
    now rewrite !term_score_0 by assumption. }
  rewrite Hfinal. reflexivity.
Qed.

Lemma scan_ticker_all_requests_fail_witness :
  scan_ticker sample_provider default_weights "XYZ" 0%nat
  = (Ok {| ticker := "XYZ"; news := 0;
           fund := 0; fund_reason := "Financial analysis error";
           trend := 0; trend_reason := "Trend error";
           final_score := 0; signal := STRONG_BEARISH |}, 3%nat).
Proof.
  apply (scan_ticker_all_requests_fail sample_provider default_weights "XYZ"
           0%nat 1%nat 2%nat 3%nat
           (ProviderError "unreachable") (ProviderError "no statement")
           (ProviderError "no prices")).
  - unfold valid_weights, slider_range. cbn. lia.
  - reflexivity.
  - reflexivity.
  - reflexivity.
Defined.

Lemma no_news_ceiling (z b c : float) :
  z = zero -> In b fund_terms -> In c trend_terms ->
  (label_rank (classify (z + b + c)) <= 2)%nat.
Proof.
  assert (Hall : forallb (fun b => forallb (fun c =>
      Nat.leb (label_rank (classify (zero + b + c))) 2) trend_terms) fund_terms = true)
    by (vm_compute; reflexivity).
  intros -> Hb Hc. rewrite forallb_forall in Hall. specialize (Hall b Hb).
  rewrite forallb_forall in Hall. specialize (Hall c Hc).
  now apply Nat.leb_le.
Qed.

(** X7. Under slider weights, a record whose news score is 0 (no headline
    was collected, or the headlines cancel out) is never rated above
    NEUTRAL: fundamentals and trend alone cannot make a ticker BULLISH or
    STRONG BULLISH. *)
Theorem scan_no_news_never_bullish {W} (P : Provider W) (wts : Weights)
    (tickers : list string) (w : W) :
  valid_weights wts ->
  exists results w',
    scan P wts tickers w = (Ok results, w')
    /\ forall r, In r results -> news r = 0 ->
         In (signal r) [NEUTRAL; BEARISH; STRONG_BEARISH].
Proof.
  intros (Hwn & Hwf & Hwt).
  destruct (scan_total P wts tickers w) as (rs & w' & H & _ & Hall).
  exists rs, w'. split; [exact H|]. intros r Hr Hnews.
  rewrite Forall_forall in Hall.
  destruct (Hall r Hr) as (_ & Hf & Ht & _ & Hsig).
  assert (Hrank : (label_rank (signal r) <= 2)%nat).
  { rewrite Hsig, Hnews.
    apply (no_news_ceiling (term 0 (w_news wts)) (term (fund r) (w_fund wts))
             (term (trend r) (w_trend wts)));
      [now apply term_score_0 | now apply in_terms | now apply in_terms]. }
  pose proof (classify_in_labels (final (news r) (fund r) (trend r) wts)) as Hl.
  rewrite <- Hsig in Hl. unfold labels in Hl. cbn [In] in Hl |- *.
  destruct Hl as [Hl|[Hl|[Hl|[Hl|[Hl|[]]]]]]; rewrite <- Hl in *; auto.
  - exfalso. vm_compute in Hrank. lia.
  - exfalso. vm_compute in Hrank. lia.
Qed.

Lemma scan_no_news_never_bullish_witness :
  exists results w',
    scan sample_provider default_weights ["XYZ"; "VOID"] 0%nat = (Ok results, w')
    /\ forall r, In r results -> news r = 0 ->
         In (signal r) [NEUTRAL; BEARISH; STRONG_BEARISH].
Proof.
  apply (scan_no_news_never_bullish sample_provider default_weights ["XYZ"; "VOID"] 0%nat).
  unfold valid_weights, slider_range. cbn. lia.
Defined.

Lemma zeros_sum (z1 z2 z3 : float) :
  In z1 zeros -> In z2 zeros -> In z3 zeros ->
  (round_float (z1 + z2 + z3) 2 =? 0)%float = true
  /\ classify (z1 + z2 + z3) = STRONG_BEARISH.
Proof.
  unfold zeros. cbn [In].
  intros [<-|[<-|[]]] [<-|[<-|[]]] [<-|[<-|[]]]; split; vm_compute; reflexivity.
Qed.

(** X8. With the three sliders at 0, every record of every scan has the
    final score 0 and the signal STRONG BEARISH, whatever the scorers found. *)
Theorem scan_all_weights_zero {W} (P : Provider W) (tickers : list string) (w : W) :
  exists results w',
    scan P {| w_news := 0; w_fund := 0; w_trend := 0 |} tickers w = (Ok results, w')
    /\ forall r, In r results ->
         (final_score r =? 0)%float = true /\ signal r = STRONG_BEARISH.
Proof.
  set (wts := {| w_news := 0; w_fund := 0; w_trend := 0 |}).
  destruct (scan_total P wts tickers w) as (rs & w' & H & _ & Hall).
  exists rs, w'. split; [exact H|]. intros r Hr.
  rewrite Forall_forall in Hall.
  destruct (Hall r Hr) as ((k & Hk & Hnews) & Hf & Ht & Hfinal & Hsig).
  rewrite Hfinal, Hsig.
  change (final (news r) (fund r) (trend r) wts)
    with (term (news r) 0 + term (fund r) 0 + term (trend r) 0)%float.
  cbn [In] in Hf, Ht.
  apply zeros_sum; apply term_weight_0; lia.
Qed.

Lemma default_weights_agree (k f t : Z) :
  -35 <= k <= 35 -> In f [-20; 0; 20] -> In t [-10; 0; 10] ->
  classify (final (5 * k) f t default_weights)
  = classify (round_float (final (5 * k) f t default_weights) 2).
Proof.
  assert (Hall : forallb (fun k => forallb (fun f => forallb (fun t =>
      String.eqb (classify (final (5 * k) f t default_weights))
                 (classify (round_float (final (5 * k) f t default_weights) 2)))
      [-10; 0; 10]) [-20; 0; 20]) (zrange (-35) 71) = true)
    by (vm_compute; reflexivity).
  intros Hk Hf Ht. rewrite forallb_forall in Hall.
  specialize (Hall k (in_zrange (-35) k 71 ltac:(lia))).
  rewrite forallb_forall in Hall. specialize (Hall f Hf).
  rewrite forallb_forall in Hall. specialize (Hall t Ht).
  now apply String.eqb_eq.
Qed.

(** X9. With the sliders left at their defaults (20, 20, 20), the signal of
    every record of every scan is the class of the final score the record
    shows: the rounding of the final score never crosses a threshold there. *)
Theorem scan_default_weights_signal_matches_score {W} (P : Provider W)
    (tickers : list string) (w : W) :
  exists results w',
    scan P default_weights tickers w = (Ok results, w')
    /\ forall r, In r results -> signal r = classify (final_score r).
Proof.
  destruct (scan_total P default_weights tickers w) as (rs & w' & H & _ & Hall).
  exists rs, w'. split; [exact H|]. intros r Hr.
  rewrite Forall_forall in Hall.
  destruct (Hall r Hr) as ((k & Hk & Hnews) & Hf & Ht & Hfinal & Hsig).
  rewrite Hfinal, Hsig, Hnews. now apply default_weights_agree.
Qed.

(* ================================================================= *)
(** ** The classifier is monotone *)

Lemma float_ge_int_up (f g : float) (n : Z) :
  (f <=? g)%float = true -> float_ge_int f n = true -> float_ge_int g n = true.
Proof. unfold float_ge_int. intros Hfg Hf. exact (leb_trans _ _ _ Hf Hfg). Qed.

(** X10. A higher score never gets a lower label: when [f <= g] the label of
    [g] is at least as high in the order STRONG BEARISH < BEARISH < NEUTRAL
    < BULLISH < STRONG BULLISH as the label of [f]. *)
Theorem classify_monotone (f g : float) :
  (f <=? g)%float = true ->
  (label_rank (classify f) <= label_rank (classify g))%nat.
Proof.
  intros Hfg.
  pose proof (float_ge_int_up f g 60 Hfg) as H60.
  pose proof (float_ge_int_up f g 40 Hfg) as H40.
  pose proof (float_ge_int_up f g 25 Hfg) as H25.
  pose proof (float_ge_int_up f g 10 Hfg) as H10.
  assert (R4 : label_rank STRONG_BULLISH = 4%nat) by (vm_compute; reflexivity).
  assert (R3 : label_rank BULLISH = 3%nat) by (vm_compute; reflexivity).
  assert (R2 : label_rank NEUTRAL = 2%nat) by (vm_compute; reflexivity).
  assert (R1 : label_rank BEARISH = 1%nat) by (vm_compute; reflexivity).
  assert (R0 : label_rank STRONG_BEARISH = 0%nat) by (vm_compute; reflexivity).
  unfold classify.
  destruct (float_ge_int f 60); [rewrite (H60 eq_refl), R4; lia|].
  destruct (float_ge_int f 40);
    [rewrite (H40 eq_refl); destruct (float_ge_int g 60); rewrite ?R4, ?R3; lia|].
  destruct (float_ge_int f 25);
    [rewrite (H25 eq_refl); destruct (float_ge_int g 60), (float_ge_int g 40);
     rewrite ?R4, ?R3, ?R2; lia|].
  destruct (float_ge_int f 10);
    [rewrite (H10 eq_refl);
     destruct (float_ge_int g 60), (float_ge_int g 40), (float_ge_int g 25);
     rewrite ?R4, ?R3, ?R2, ?R1; lia|].
  rewrite R0. lia.
Qed.

Lemma classify_monotone_witness :
  (label_rank (classify 30) <= label_rank (classify 45.5))%nat.
Proof. apply (classify_monotone 30 45.5). reflexivity. Defined.

(* ================================================================= *)
(** ** Scans compose, and the weights touch two fields only *)

Lemma component_scores_result_of (tk : string) (n : Z) (f t : Z * string)
    (w1 w2 : Weights) :
  component_scores (result_of tk n f t w1) = component_scores (result_of tk n f t w2).
Proof. now destruct f, t. Qed.

Lemma scan_ticker_other_weights {W} (P : Provider W) (w1 w2 : Weights)
    (tk : string) (w : W) :
  exists r1 r2 w',
    scan_ticker P w1 tk w = (Ok r1, w')
    /\ scan_ticker P w2 tk w = (Ok r2, w')
    /\ component_scores r1 = component_scores r2.
Proof.
  destruct (scan_ticker_total P w1 tk w)
    as (hs & f & t & wa & wb & w' & Hn & Hf & Ht & Hr & _).
  exists (result_of tk (news_score_of hs) f t w1),
         (result_of tk (news_score_of hs) f t w2), w'.
  split; [exact Hr|]. split; [|apply component_scores_result_of].
  unfold scan_ticker. unfold bind at 1. rewrite Hn.
  unfold bind at 1. rewrite Hf. unfold bind at 1. rewrite Ht. reflexivity.
Qed.

(** X11. Moving the sliders changes nothing but the final score and the
    signal: two scans of the same tickers from the same world under
    different weights make the same requests (they leave the same world) and
    give records with the same ticker, news score, fundamental score and
    reason, trend score and reason. *)
Theorem scan_weights_touch_final_only {W} (P : Provider W) (w1 w2 : Weights)
    (tickers : list string) (w : W) :
  exists rs1 rs2 w',
    scan P w1 tickers w = (Ok rs1, w')
    /\ scan P w2 tickers w = (Ok rs2, w')
    /\ map component_scores rs1 = map component_scores rs2.
Proof.
  revert w. induction tickers as [|tk rest IH]; intros w.
  - exists [], [], w. repeat split.
  - destruct (scan_ticker_other_weights P w1 w2 tk w) as (r1 & r2 & wa & H1 & H2 & Hc).
    destruct (IH wa) as (rs1 & rs2 & w' & Hs1 & Hs2 & Hcs).
    exists (r1 :: rs1), (r2 :: rs2), w'.
    rewrite !scan_unfold, H1, H2, Hs1, Hs2. cbn [map]. now rewrite Hc, Hcs.
Qed.

(** X12. Scanning a list in two parts gives the same records as scanning it
    at once: the scan of [tickers1 ++ tickers2] is the scan of [tickers1]
    followed by the scan of [tickers2] from the world the first left. *)
Theorem scan_app {W} (P : Provider W) (wts : Weights)
    (tickers1 tickers2 : list string) (w : W) :
  exists rs1 w1 rs2 w',
    scan P wts tickers1 w = (Ok rs1, w1)
    /\ scan P wts tickers2 w1 = (Ok rs2, w')
    /\ scan P wts (tickers1 ++ tickers2)%list w = (Ok (rs1 ++ rs2)%list, w').
Proof.
  revert w. induction tickers1 as [|tk rest IH]; intros w.
  - destruct (scan_total P wts tickers2 w) as (rs2 & w' & H & _).
    exists [], w, rs2, w'. repeat split; assumption.
  - destruct (scan_ticker_total P wts tk w)
      as (hs & f & t & wa & wb & wc & _ & _ & _ & Hr & _).
    destruct (IH wc) as (rs1 & w1 & rs2 & w' & H1 & H2 & H12).
    exists (result_of tk (news_score_of hs) f t wts :: rs1), w1, rs2, w'.
    cbn [app]. rewrite !scan_unfold, Hr, H1, H12. repeat split. exact H2.
Qed.

(* ================================================================= *)
(** ** Missing figures and missing rows *)

Lemma float_gt_nan (x y : float) :
  is_nan x = true \/ is_nan y = true -> float_gt x y = false.
Proof.
  unfold float_gt. rewrite FloatAxioms.ltb_spec, !is_nan_spec. unfold SFltb.
  intros [H|H]; rewrite H.
  - now destruct (Prim2SF y).
  - reflexivity.
Qed.

Lemma fundamental_score_run {W} (P : Provider W) (tk : string) (w w' : W)
    (fin : DataFrame) (rev ni : Series) (rev0 rev1 ni0 ni1 : float) :
  yf_financials P tk w = (Ok fin, w') -> empty fin = false ->
  loc fin "Total Revenue" = Ok rev -> loc fin "Net Income" = Ok ni ->
  iloc rev 0 = Ok rev0 -> iloc rev 1 = Ok rev1 ->
  iloc ni 0 = Ok ni0 -> iloc ni 1 = Ok ni1 ->
  fundamental_score P tk w
  = (Ok ((if float_gt rev0 rev1 then 10 else -10)
         + (if float_gt ni0 ni1 then 10 else -10),
         (if float_gt rev0 rev1 then "Revenue growing" else "Revenue declining")
         ++ ", "
         ++ (if float_gt ni0 ni1 then "Net income improving"
             else "Net income declining")), w').
Proof.
  intros Hfin He Hrev Hni H0 H1 H2 H3.
  unfold fundamental_score. run. rewrite Hfin, He, Hrev, Hni.
  rewrite !iloc_upto_2 by lia. rewrite H0, H1, H2, H3.
  destruct (float_gt rev0 rev1), (float_gt ni0 ni1); reflexivity.
Qed.

(** X13. A missing figure counts as a decline: when the latest or the prior
    revenue is NaN the fundamental scorer answers "Revenue declining" and
    takes 10 off, and likewise for net income; with a figure missing on both
    rows it answers (-20, "Revenue declining, Net income declining"). *)
Theorem fundamental_score_missing_figure {W} (P : Provider W) (tk : string)
    (w w' : W) (fin : DataFrame) (rev ni : Series) (rev0 rev1 ni0 ni1 : float) :
  yf_financials P tk w = (Ok fin, w') -> empty fin = false ->
  loc fin "Total Revenue" = Ok rev -> loc fin "Net Income" = Ok ni ->
  iloc rev 0 = Ok rev0 -> iloc rev 1 = Ok rev1 ->
  iloc ni 0 = Ok ni0 -> iloc ni 1 = Ok ni1 ->
  (is_nan rev0 = true \/ is_nan rev1 = true ->
   fundamental_score P tk w
   = (Ok (if float_gt ni0 ni1
          then (0, "Revenue declining, Net income improving")
          else (-20, "Revenue declining, Net income declining")), w'))
  /\ (is_nan ni0 = true \/ is_nan ni1 = true ->
      fundamental_score P tk w
      = (Ok (if float_gt rev0 rev1
             then (0, "Revenue growing, Net income declining")
             else (-20, "Revenue declining, Net income declining")), w')).
Proof.
  intros Hfin He Hrev Hni H0 H1 H2 H3.
  rewrite (fundamental_score_run P tk w w' fin rev ni rev0 rev1 ni0 ni1)
    by assumption.
  split; intros Hnan; rewrite (float_gt_nan _ _ Hnan).
  - now destruct (float_gt ni0 ni1).
  - now destruct (float_gt rev0 rev1).
Qed.

Lemma fundamental_score_missing_figure_witness :
  fundamental_score gap_provider "MSFT" 0%nat
  = (Ok (0, "Revenue declining, Net income improving"), 1%nat).
Proof.
  exact (proj1 (fundamental_score_missing_figure gap_provider "MSFT" 0%nat 1%nat
                  gap_fin [nan; 100]%float [12; 9]%float nan 100%float 12%float 9%float
                  eq_refl eq_refl eq_refl eq_refl eq_refl eq_refl eq_refl eq_refl)
               (or_introl eq_refl)).
Defined.

Lemma position_None (label : string) (ls : list string) :
  position label ls = None <-> ~ In label ls.
Proof.
  induction ls as [|l ls IH]; cbn [position In]; [tauto|].
  destruct (String.eqb_spec l label) as [->|Hne].
  - split; [discriminate | intros H; exfalso; auto].
  - destruct (position label ls); cbn [option_map].
    + split; [discriminate|]. intros H.
      assert (Hn : ~ In label ls) by tauto. apply IH in Hn. discriminate.
    + split; [|reflexivity]. intros _ [H|H]; [congruence | now apply IH].
Qed.

Lemma loc_raises (df : DataFrame) (label : string) :
  (exists e, loc df label = Raise e) <-> ~ In label (index df).
Proof.
  rewrite <- position_None. unfold loc.
  destruct (position label (index df)); split.
  - intros [e H]. discriminate.
  - discriminate.
  - reflexivity.
  - intros _. eauto.
Qed.

Lemma getitem_raises (df : DataFrame) (label : string) :
  (exists e, getitem df label = Raise e) <-> ~ In label (columns df).
Proof.
  rewrite <- position_None. unfold getitem.
  destruct (position label (columns df)); split.
  - intros [e H]. discriminate.
  - discriminate.
  - reflexivity.
  - intros _. eauto.
Qed.

Lemma iloc_in_range (s : Series) (i : nat) :
  (i < List.length s)%nat -> exists x, iloc s i = Ok x.
Proof.
  intros H. unfold iloc. destruct (nth_error s i) eqn:E; [eauto|].
  apply nth_error_None in E. lia.
Qed.

(** X14. The fundamental scorer answers "Financial analysis error" exactly
    when the statement could not be retrieved, or was retrieved non-empty
    without a "Total Revenue" row, without a "Net Income" row, or with fewer
    than two periods. *)
Theorem fundamental_score_error_iff {W} (P : Provider W) (tk : string) (w : W) :
  (exists score w',
      fundamental_score P tk w = (Ok (score, "Financial analysis error"), w'))
  <-> (exists e w', yf_financials P tk w = (Raise e, w'))
      \/ (exists fin w',
             yf_financials P tk w = (Ok fin, w') /\ empty fin = false
             /\ (~ In "Total Revenue" (index fin)
                 \/ ~ In "Net Income" (index fin)
                 \/ (List.length (columns fin) < 2)%nat)).
Proof.
  split.
  - intros (score & w' & H).
    destruct (yf_financials P tk w) as [[fin|e] w1] eqn:Hfin; [|left; eauto].
    right. exists fin, w1. split; [reflexivity|].
    destruct (empty fin) eqn:He.
    { unfold fundamental_score in H. run. rewrite Hfin, He in H. discriminate H. }
    split; [reflexivity|].
    destruct (loc fin "Total Revenue") as [rev|e] eqn:Hrev;
      [|left; apply loc_raises; eauto].
    destruct (loc fin "Net Income") as [ni|e] eqn:Hni;
      [|right; left; apply loc_raises; eauto].
    right. right.
    destruct (Nat.lt_ge_cases (List.length (columns fin)) 2) as [Hlt|Hge]; [exact Hlt|].
    exfalso.
    pose proof (loc_length _ _ _ Hrev) as Lr. pose proof (loc_length _ _ _ Hni) as Ln.
    destruct (iloc_in_range rev 0 ltac:(lia)) as [rev0 H0].
    destruct (iloc_in_range rev 1 ltac:(lia)) as [rev1 H1].
    destruct (iloc_in_range ni 0 ltac:(lia)) as [ni0 H2].
    destruct (iloc_in_range ni 1 ltac:(lia)) as [ni1 H3].
    rewrite (fundamental_score_run P tk w w1 fin rev ni rev0 rev1 ni0 ni1) in H
      by assumption.
    destruct (float_gt rev0 rev1), (float_gt ni0 ni1); discriminate H.
  - intros [(e & w' & H) | (fin & w' & Hfin & He & Hfail)].
    + exists 0, w'. now apply fundamental_score_raise with (e := e).
    + exists 0, w'. apply (fundamental_score_lookup_raise P tk w w' fin Hfin He).
      rewrite !loc_raises. exact Hfail.
Qed.

(** X15. The trend scorer answers "Trend error" exactly when the prices
    could not be retrieved, or were retrieved non-empty without a "Close"
    column: a short or gappy price history is never reported as an error. *)
Theorem trend_score_error_iff {W} (P : Provider W) (tk : string) (w : W) :
  (exists score w', trend_score P tk w = (Ok (score, "Trend error"), w'))
  <-> (exists e w', yf_download P tk w = (Raise e, w'))
      \/ (exists data w',
             yf_download P tk w = (Ok data, w') /\ empty data = false
             /\ ~ In "Close" (columns data)).
Proof.
  split.
  - intros (score & w' & H).
    destruct (yf_download P tk w) as [[data|e] w1] eqn:Hdata; [|left; eauto].
    right. exists data, w1. split; [reflexivity|].
    destruct (empty data) eqn:He.
    { unfold trend_score in H. run. rewrite Hdata, He in H. discriminate H. }
    split; [reflexivity|].
    destruct (getitem data "Close") as [close|e] eqn:Hclose;
      [|apply getitem_raises; eauto].
    exfalso. rewrite (trend_score_run P tk w w1 data close Hdata He Hclose) in H.
    destruct (float_gt _ _); discriminate H.
  - intros [(e & w' & H) | (data & w' & Hdata & He & Hno)].
    + exists 0, w'. now apply trend_score_raise with (e := e).
    + apply getitem_raises in Hno. destruct Hno as [e Hno].
      exists 0, w'. now apply trend_score_lookup_raise with (data := data) (e := e).
Qed.

(* ================================================================= *)
(** ** A price that has stopped moving *)

Lemma last_app_nonempty {A} (xs ys : list A) (d : A) :
  ys <> [] -> last (xs ++ ys) d = last ys d.
Proof.
  intros Hy. induction xs as [|x xs IH]; [reflexivity|].
  cbn [app]. rewrite <- IH. destruct (xs ++ ys)%list eqn:E; [|reflexivity].
  apply app_eq_nil in E. destruct E. congruence.
Qed.

(** Removing rows keeps the count of equal rows and the row seen last. *)
Lemma fold_remove_same (xs : list float) (st : mean_state) :
  num_consecutive_same_value (fold_left remove_mean xs st)
  = num_consecutive_same_value st
  /\ prev_value (fold_left remove_mean xs st) = prev_value st.
Proof.
  revert st. induction xs as [|x xs IH]; intros st; [now split|].
  cbn [fold_left]. destruct (IH (remove_mean st x)) as [-> ->].
  unfold remove_mean. now destruct (x =? x)%float.
Qed.

Lemma add_mean_nonneg (st : mean_state) (val : float) :
  0 <= num_consecutive_same_value st ->
  0 <= num_consecutive_same_value (add_mean st val).
Proof.
  intros H. unfold add_mean. destruct (val =? val)%float; [|exact H].
  cbn [num_consecutive_same_value].
  destruct (val =? prev_value st)%float; lia.
Qed.

Lemma fold_add_nonneg (xs : list float) (st : mean_state) :
  0 <= num_consecutive_same_value st ->
  0 <= num_consecutive_same_value (fold_left add_mean xs st).
Proof.
  revert st. induction xs as [|x xs IH]; intros st H; [exact H|].
  cbn [fold_left]. apply IH, add_mean_nonneg, H.
Qed.

Lemma state_at_nonneg (values : list float) (window i : nat) :
  0 <= num_consecutive_same_value (state_at values window i).
Proof.
  induction i as [|i IH]; cbn [state_at]; unfold roll_step.
  - cbn [Nat.eqb orb]. apply fold_add_nonneg. reflexivity.
  - destruct ((S i =? 0)%nat || (S i <=? window_start window (S i))%nat).
    + apply fold_add_nonneg. reflexivity.
    + apply add_mean_nonneg.
      now rewrite (proj1 (fold_remove_same _ _)).
Qed.

(** An observed row that enters the window is the row seen last; it is
    counted once more when it repeats the one before. *)
Lemma add_mean_repeated (st : mean_state) (c : float) :
  observed c = true -> 0 <= num_consecutive_same_value st ->
  prev_value (add_mean st c) = c
  /\ 1 <= num_consecutive_same_value (add_mean st c)
  /\ (prev_value st = c ->
      num_consecutive_same_value (add_mean st c)
      = num_consecutive_same_value st + 1).
Proof.
  unfold observed. intros Hc Hn. unfold add_mean. rewrite Hc.
  cbn [prev_value num_consecutive_same_value]. repeat split.
  - destruct (c =? prev_value st)%float; lia.
  - intros ->. now rewrite Hc.
Qed.

(** After [k + 1] rows equal to [c] in a row, ending at row [a + k], the
    state has counted them. *)
Lemma state_at_run (values : list float) (window : nat) (c : float)
    (a k : nat) :
  (2 <= window)%nat -> observed c = true ->
  (forall j, (j <= k)%nat -> nth (a + j) values nan = c) ->
  prev_value (state_at values window (a + k)) = c
  /\ Z.of_nat k + 1
     <= num_consecutive_same_value (state_at values window (a + k)).
Proof.
  intros Hw Hc. induction k as [|k IH]; intros Hrun.
  - rewrite Nat.add_0_r. pose proof (Hrun 0%nat (Nat.le_refl _)) as H0.
    rewrite Nat.add_0_r in H0. destruct a as [|a].
    + cbn [state_at]. unfold roll_step, window_rows, window_start.
      cbn [Nat.eqb orb]. replace (1 - window)%nat with 0%nat by lia.
      cbn [Nat.sub rows seq map fold_left]. rewrite H0.
      destruct (add_mean_repeated (setup_mean c) c Hc (Z.le_refl 0))
        as (Hp & _ & Hnum).
      split; [exact Hp|]. rewrite (Hnum eq_refl). cbn [setup_mean num_consecutive_same_value]. lia.
    + cbn [state_at]. unfold roll_step. cbn [Nat.eqb orb].
      destruct (Nat.leb_spec (S a) (window_start window (S a))) as [Hs|_];
        [unfold window_start in Hs; lia|].
      rewrite H0.
      destruct (add_mean_repeated
                  (fold_left remove_mean
                     (rows values (window_start window (S a - 1))
                        (window_start window (S a) - window_start window (S a - 1)))
                     (state_at values window a)) c Hc) as (Hp & Hnum & _).
      * rewrite (proj1 (fold_remove_same _ _)). apply state_at_nonneg.
      * split; [exact Hp | lia].
  - destruct IH as [Hp Hnum]; [intros j Hj; apply Hrun; lia|].
    rewrite Nat.add_succ_r. cbn [state_at]. unfold roll_step.
    cbn [Nat.eqb orb].
    destruct (Nat.leb_spec (S (a + k)) (window_start window (S (a + k))))
      as [Hs|_]; [unfold window_start in Hs; lia|].
    rewrite <- Nat.add_succ_r, (Hrun (S k) (Nat.le_refl _)), Nat.add_succ_r.
    set (st := fold_left remove_mean _ _).
    destruct (fold_remove_same
                (rows values (window_start window (S (a + k) - 1))
                   (window_start window (S (a + k))
                    - window_start window (S (a + k) - 1)))
                (state_at values window (a + k))) as [En Ep].
    fold st in En, Ep.
    destruct (add_mean_repeated st c Hc) as (Hp' & _ & Hnum').
    + rewrite En. apply state_at_nonneg.
    + split; [exact Hp'|]. rewrite Hnum' by (now rewrite Ep). lia.
Qed.

Lemma calc_mean_same (st : mean_state) :
  nobs st = 20 -> 20 <= num_consecutive_same_value st ->
  calc_mean 20 st = prev_value st.
Proof.
  intros Hn Hnum. unfold calc_mean. rewrite Hn. cbn [Z.leb Z.ltb Z.compare andb Pos.compare Pos.compare_cont].
  destruct (Z.leb_spec 20 (num_consecutive_same_value st)); [reflexivity | lia].
Qed.

(** Twenty equal closes at the end: the moving average is that close. *)
Lemma rolling_mean_flat_tail (older : Series) (c : float) :
  is_nan c = false -> is_infinity c = false ->
  last (rolling_mean 20 (older ++ repeat c 20)%list) nan = c.
Proof.
  intros Hnan Hinf.
  assert (Hc : observed c = true) by (now rewrite observed_is_nan, Hnan).
  rewrite rolling_mean_last by (intros E; apply app_eq_nil in E; now destruct E).
  rewrite map_app, map_repeat, (prep_value_finite c Hinf).
  rewrite length_app, repeat_length.
  set (values := (map prep_value older ++ repeat c 20)%list).
  replace (List.length older + 20 - 1)%nat with (List.length older + 19)%nat by lia.
  assert (Hlen : List.length values = (List.length older + 20)%nat)
    by (unfold values; now rewrite length_app, length_map, repeat_length).
  destruct (state_at_run values 20 c (List.length older) 19) as [Hp Hnum];
    [lia | exact Hc | |].
  - intros j Hj. unfold values.
    rewrite app_nth2 by (rewrite length_map; lia).
    rewrite length_map. replace (List.length older + j - List.length older)%nat with j by lia.
    apply nth_repeat_lt. lia.
  - rewrite calc_mean_same; [exact Hp | | exact Hnum].
    rewrite nobs_state_at.
    replace (List.length older + 19)%nat with (List.length values - 1)%nat by lia.
    rewrite window_rows_last by (intros E; rewrite E in Hlen; cbn in Hlen; lia).
    rewrite Hlen. replace (List.length older + 20 - 20)%nat with (List.length (map prep_value older) + 0)%nat
      by (rewrite length_map; lia).
    unfold values. rewrite skipn_app, Nat.add_comm. cbn [Nat.add].
    rewrite skipn_all, Nat.sub_diag. cbn [skipn app].
    now rewrite count_obs_repeat.
Qed.

(** X16. A price that has not moved over the last 20 closes is never an
    uptrend, whatever the older closes are: with that close a number, the
    moving average at the last position is that very close, and the answer
    is Downtrend; with that close missing or infinite the average is
    missing, and the answer is Downtrend as well. *)
Theorem trend_score_flat_tail {W} (P : Provider W) (tk : string) (w w' : W)
    (data : DataFrame) (older : Series) (c : float) :
  yf_download P tk w = (Ok data, w') -> empty data = false ->
  getitem data "Close" = Ok (older ++ repeat c 20)%list ->
  (is_nan c = false -> is_infinity c = false ->
   iloc_last (rolling_mean 20 (older ++ repeat c 20)%list) = Ok c)
  /\ trend_score P tk w = (Ok (-10, "Downtrend"), w').
Proof.
  intros Hdata He Hclose. split.
  - intros Hnan Hinf. rewrite iloc_last_rolling_mean
      by (intros E; apply app_eq_nil in E; now destruct E).
    now rewrite rolling_mean_flat_tail.
  - rewrite (trend_score_run P tk w w' data _ Hdata He Hclose).
    rewrite last_app_nonempty by discriminate.
    change (last (repeat c 20) nan) with c.
    enough (H : float_gt c (last (rolling_mean 20 (older ++ repeat c 20)%list) nan) = false)
      by (now rewrite H).
    assert (Hin : In c (skipn (List.length (older ++ repeat c 20)%list - 20)
                          (older ++ repeat c 20)%list)).
    { rewrite length_app, repeat_length.
      replace (List.length older + 20 - 20)%nat with (List.length older + 0)%nat by lia.
      rewrite skipn_app, Nat.add_comm. cbn [Nat.add].
      rewrite skipn_all, Nat.sub_diag. now left. }
    destruct (is_nan c) eqn:Hnan.
    + rewrite (rolling_mean_missing 20 _ c Hin (prep_value_nan c Hnan)).
      apply float_gt_nan_r.
    + destruct (is_infinity c) eqn:Hinf.
      * rewrite (rolling_mean_missing 20 _ c Hin (prep_value_infinity c Hinf)).
        apply float_gt_nan_r.
      * rewrite (rolling_mean_flat_tail older c Hnan Hinf).
        apply eqb_not_ltb. unfold is_nan in Hnan.
        now apply negb_false_iff in Hnan.
Qed.

Lemma trend_score_flat_tail_witness :
  iloc_last (rolling_mean 20 (repeat 50%float 10
                              ++ repeat 0x1.9066666666666p+6%float 20)%list)
  = Ok 0x1.9066666666666p+6%float
  /\ trend_score settled_provider "KO" 0%nat = (Ok (-10, "Downtrend"), 1%nat).
Proof.
  destruct (trend_score_flat_tail settled_provider "KO" 0%nat 1%nat
              settled_prices (repeat 50%float 10) 0x1.9066666666666p+6%float
              eq_refl eq_refl eq_refl) as [Hma Hrun].
  split; [apply Hma; reflexivity | exact Hrun].
Defined.

(** X17. A missing close among the last 20 (or among all of them when there
    are fewer) makes the answer Downtrend: the mean is NaN and no close
    exceeds NaN.  In particular a missing latest close is a Downtrend. *)
Theorem trend_score_missing_close {W} (P : Provider W) (tk : string) (w w' : W)
    (data : DataFrame) (close : Series) (x : float) :
  yf_download P tk w = (Ok data, w') -> empty data = false ->
  getitem data "Close" = Ok close ->
  In x (skipn (List.length close - 20) close) -> is_nan x = true ->
  trend_score P tk w = (Ok (-10, "Downtrend"), w').
Proof.
  intros Hdata He Hclose Hin Hx.
  rewrite (trend_score_run P tk w w' data close Hdata He Hclose).
  rewrite (rolling_mean_missing 20 close x Hin (prep_value_nan x Hx)).
  now rewrite float_gt_nan_r.
Qed.

Lemma trend_score_missing_close_witness :
  trend_score gap_provider "MSFT" 0%nat = (Ok (-10, "Downtrend"), 1%nat).
Proof.
  apply (trend_score_missing_close gap_provider "MSFT" 0%nat 1%nat gap_prices
           (map (fun i => if (i =? 25)%nat then nan else float_of_int (100 + Z.of_nat i))
                (seq 0 30)) nan); try reflexivity.
  cbn. auto 20.
Defined.

(* ================================================================= *)
(** ** Headlines *)

Lemma filter_no_match {A} (p : A -> bool) (xs : list A) :
  (forall a, In a xs -> p a = false) -> filter p xs = [].
Proof.
  induction xs as [|a xs IH]; intros H; [reflexivity|].
  cbn [filter]. rewrite (H a (or_introl eq_refl)). apply IH.
  intros b Hb. apply H. now right.
Qed.

(** X18. When the page is retrieved and parsed, the headlines are the texts
    of the [h3] elements of the page, in page order, cut after the fifth:
    their number is the smaller of 5 and the number of [h3] elements; every
    headline is the text of an [h3] element; elements with another tag never
    give a headline; and a page with at most five [h3] elements loses
    none. *)
Theorem fetch_news_headlines {W} (P : Provider W) (tk : string) (w w' : W)
    (html : string) (soup : list Element) :
  requests_get P (quote_url tk) w = (Ok html, w') ->
  html_parser P html = Ok soup ->
  let h3s := filter (fun a => String.eqb (tag a) "h3") soup in
  exists headlines,
    fetch_news P tk w = (Ok headlines, w')
    /\ List.length headlines = Nat.min 5 (List.length h3s)
    /\ (exists dropped, map text h3s = (headlines ++ dropped)%list)
    /\ (forall h, In h headlines ->
          exists a, In a soup /\ tag a = "h3" /\ text a = h)
    /\ ((List.length h3s <= 5)%nat -> headlines = map text h3s)
    /\ ((forall a, In a soup -> tag a <> "h3") -> headlines = []).
Proof.
  intros Hget Hparse h3s.
  exists (map text (find_all "h3" 5 soup)).
  split; [now apply fetch_news_run with (html := html)|].
  unfold find_all. fold h3s. split; [|split; [|split; [|split]]].
  - now rewrite length_map, length_firstn.
  - exists (map text (skipn 5 h3s)).
    now rewrite <- map_app, firstn_skipn.
  - intros h Hh. apply in_map_iff in Hh. destruct Hh as (a & <- & Ha).
    assert (Hin : In a h3s).
    { rewrite <- (firstn_skipn 5 h3s). apply in_or_app. now left. }
    apply filter_In in Hin. destruct Hin as [Hs Ht].
    exists a. repeat split; [exact Hs|]. now apply String.eqb_eq.
  - intros Hle. now rewrite firstn_all2.
  - intros Hnone. assert (E : h3s = []).
    { apply filter_no_match. intros a Ha.
      destruct (String.eqb_spec (tag a) "h3") as [Ht|_]; [|reflexivity].
      exfalso. exact (Hnone a Ha Ht). }
    rewrite E. reflexivity.
Qed.

Lemma fetch_news_headlines_witness :
  exists headlines,
    fetch_news sample_provider "AAPL" 0%nat = (Ok headlines, 1%nat)
    /\ List.length headlines = 1%nat.
Proof.
  destruct (fetch_news_headlines sample_provider "AAPL" 0%nat 1%nat sample_page
              [ {| tag := "title"; text := "AAPL" |};
                {| tag := "h3"; text := "AAPL beats estimates" |} ]
              eq_refl eq_refl) as (hs & H & Hlen & _).
  exists hs. split; [exact H | exact Hlen].
Defined.

(* ================================================================= *)
(** ** The report can be read back *)

Lemma clean_append (a b : string) : clean (a ++ b) = clean a && clean b.
Proof.
  induction a as [|c a IH]; [reflexivity|].
  cbn [append clean]. now rewrite IH, andb_assoc.
Qed.

Lemma clean_string_of_uint (d : Decimal.uint) : clean (NilEmpty.string_of_uint d) = true.
Proof. induction d; cbn; assumption || reflexivity. Qed.

Lemma clean_str_int (n : Z) : clean (str_int n) = true.
Proof.
  unfold str_int. destruct (Z.to_int n); cbn [NilEmpty.string_of_int clean];
    rewrite ?clean_string_of_uint; reflexivity.
Qed.

Lemma split_lt_nonempty (s : string) : split_lt s <> [].
Proof.
  destruct s as [|c s]; cbn [split_lt]; [discriminate|].
  destruct (Ascii.eqb c "<"); [discriminate|].
  destruct (split_lt s); discriminate.
Qed.

Lemma split_lt_clean_append (a x : string) :
  clean a = true ->
  split_lt (a ++ x)
  = match split_lt x with
    | piece :: pieces => (a ++ piece) :: pieces
    | [] => [a]
    end.
Proof.
  pose proof (split_lt_nonempty x) as Hx.
  induction a as [|c a IH]; intros Ha.
  - cbn [append]. now destruct (split_lt x).
  - cbn [clean] in Ha. apply andb_true_iff in Ha. destruct Ha as [Hc Ha].
    apply negb_true_iff in Hc. cbn [append split_lt]. rewrite Hc, (IH Ha).
    now destruct (split_lt x).
Qed.

Lemma split_lt_segments (bodies : list string) :
  Forall (fun b => clean b = true) bodies ->
  split_lt (segments bodies) = "" :: bodies.
Proof.
  induction 1 as [|b bodies Hb _ IH]; [reflexivity|].
  cbn [segments fold_right]. fold (segments bodies).
  cbn [split_lt]. change (Ascii.eqb "<" "<") with true. cbn iota.
  now rewrite (split_lt_clean_append b _ Hb), IH, append_nil_r.
Qed.

Lemma segments_app (xs ys : list string) :
  segments (xs ++ ys) = segments xs ++ segments ys.
Proof.
  induction xs as [|x xs IH]; [reflexivity|].
  cbn [app segments fold_right]. fold (segments (xs ++ ys)) (segments xs).
  cbn [append]. now rewrite IH, append_assoc.
Qed.

Lemma report_block_segments (repr_float : float -> string) (r : ScanResult) :
  report_block repr_float r = segments (block_bodies repr_float r).
Proof.
  unfold report_block, report_pieces, block_bodies.
  rewrite !concat_cons. cbn [String.concat segments fold_right].
  rewrite !append_assoc. cbn [append]. rewrite ?append_assoc. reflexivity.
Qed.

Lemma generate_report_segments (repr_float : float -> string) (rs : list ScanResult) :
  generate_report repr_float rs
  = segments (title_bodies ++ flat_map (block_bodies repr_float) rs).
Proof.
  unfold generate_report. rewrite generate_report_from, segments_app.
  f_equal. induction rs as [|r rs IH]; [reflexivity|].
  cbn [map flat_map]. now rewrite concat_cons, segments_app, report_block_segments, IH.
Qed.

Lemma headers_segments (bodies : list string) :
  Forall (fun b => clean b = true) bodies ->
  headers (segments bodies) = flat_map header_pieces bodies.
Proof.
  intros H. unfold headers.
  now rewrite (split_lt_segments bodies H).
Qed.

Lemma header_pieces_block (repr_float : float -> string) (r : ScanResult) :
  flat_map header_pieces (block_bodies repr_float r) = [ticker r].
Proof. reflexivity. Qed.

Lemma clean_block_bodies (repr_float : float -> string) (r : ScanResult) :
  (forall x, clean (repr_float x) = true) -> clean_record r ->
  Forall (fun b => clean b = true) (block_bodies repr_float r).
Proof.
  intros Hrepr (Htk & Hsig & Hfr & Htr). unfold block_bodies.
  repeat constructor; rewrite ?clean_append, ?Htk, ?Hsig, ?Hfr, ?Htr, ?Hrepr,
    ?clean_str_int; reflexivity.
Qed.

Lemma clean_report_bodies (repr_float : float -> string) (rs : list ScanResult) :
  (forall x, clean (repr_float x) = true) -> Forall clean_record rs ->
  Forall (fun b => clean b = true)
         (title_bodies ++ flat_map (block_bodies repr_float) rs).
Proof.
  intros Hrepr Hrs. apply Forall_app. split.
  - repeat constructor.
  - induction Hrs as [|r rs Hr _ IH]; [constructor|].
    cbn [flat_map]. apply Forall_app. split; [now apply clean_block_bodies | exact IH].
Qed.

(** X19. The report can be read back.  When no ticker, signal or reason of
    the records and no formatted number contains the character [<], the
    contents of the [h3] elements of the report, in document order, are
    exactly the tickers of the records in their order: one header per
    record, none missing, none added, none moved. *)
Theorem generate_report_headers (repr_float : float -> string)
    (results : list ScanResult) :
  (forall x, clean (repr_float x) = true) ->
  Forall clean_record results ->
  headers (generate_report repr_float results) = map ticker results.
Proof.
  intros Hrepr Hrs.
  rewrite generate_report_segments, headers_segments
    by (now apply clean_report_bodies).
  rewrite flat_map_app. cbn [app title_bodies].
  change (flat_map header_pieces title_bodies) with (@nil string). cbn [app].
  clear Hrs. induction results as [|r rs IH]; [reflexivity|].
  cbn [flat_map map]. now rewrite flat_map_app, header_pieces_block, IH.
Qed.

Lemma clean_repr_2dp (x : float) : clean (repr_2dp x) = true.
Proof.
  unfold repr_2dp. destruct (Prim2SF x) as [[]|[]| |s m e]; try reflexivity.
  cbv zeta. rewrite !clean_append, !clean_str_int.
  destruct s; destruct (_ =? 0); rewrite ?clean_str_int; reflexivity.
Qed.

Lemma generate_report_headers_witness :
  headers (generate_report repr_2dp
             [ {| ticker := "AAPL"; news := 5; fund := 20;
                  fund_reason := "Revenue growing, Net income improving";
                  trend := 10; trend_reason := "Uptrend";
                  final_score := 14; signal := BEARISH |};
               {| ticker := "XYZ"; news := 0; fund := 0;
                  fund_reason := "Financial analysis error";
                  trend := 0; trend_reason := "Trend error";
                  final_score := 0; signal := STRONG_BEARISH |} ])
  = ["AAPL"; "XYZ"].
Proof.
  apply (generate_report_headers repr_2dp).
  - exact clean_repr_2dp.
  - repeat constructor.
Defined.

(** The texts are inserted as they are: a ticker that contains markup adds
    headers of its own. *)
Example generate_report_markup_in_ticker :
  headers (generate_report repr_2dp
             [ {| ticker := "A</h3><h3>B"; news := 0; fund := 0;
                  fund_reason := "No financials"; trend := 0;
                  trend_reason := "No data";
                  final_score := 0; signal := STRONG_BEARISH |} ])
  = ["A"; "B"].
Proof. vm_compute. reflexivity. Qed.

Lemma scan_ticker_clean_record {W} (P : Provider W) (wts : Weights) (tk : string)
    (w w' : W) (r : ScanResult) :
  clean tk = true -> scan_ticker P wts tk w = (Ok r, w') -> clean_record r.
Proof.
  intros Htk Hr.
  destruct (scan_ticker_record P wts tk w w' r Hr)
    as (Ht & (_ & _ & _ & _ & Hsig) & Hfa & Hta).
  unfold clean_record. rewrite Ht. split; [exact Htk|]. split; [|split].
  - pose proof (classify_in_labels (final (news r) (fund r) (trend r) wts)) as Hl.
    rewrite <- Hsig in Hl. unfold labels in Hl. cbn [In] in Hl.
    repeat destruct Hl as [Hl|Hl]; try contradiction; rewrite <- Hl; reflexivity.
  - unfold fundamental_answers in Hfa. cbn [In] in Hfa.
    repeat destruct Hfa as [Hfa|Hfa]; try contradiction;
      injection Hfa as _ <-; reflexivity.
  - unfold trend_answers in Hta. cbn [In] in Hta.
    repeat destruct Hta as [Hta|Hta]; try contradiction;
      injection Hta as _ <-; reflexivity.
Qed.

Lemma scan_clean_records {W} (P : Provider W) (wts : Weights) :
  forall tickers w rs w',
    Forall (fun tk => clean tk = true) tickers ->
    scan P wts tickers w = (Ok rs, w') -> Forall clean_record rs.
Proof.
  induction tickers as [|tk rest IH]; intros w rs w' Hclean H.
  - cbn in H. injection H as <- <-. constructor.
  - rewrite scan_unfold in H. inversion Hclean as [|? ? Htk Hrest]; subst.
    destruct (scan_ticker P wts tk w) as [[r|e] w1] eqn:Hr; [|discriminate].
    destruct (scan P wts rest w1) as [[rs1|e] w2] eqn:Hrs; [|discriminate].
    injection H as <- <-. constructor.
    + exact (scan_ticker_clean_record P wts tk w w1 r Htk Hr).
    + exact (IH w1 rs1 w2 Hrest Hrs).
Qed.

(** X20. From the tickers to the report and back.  For tickers without the
    character [<], in every world and under every weights, the report built
    from the records of a scan has exactly the scanned tickers as its
    headers, in the order they were given: the labels and reasons the
    scanner writes never open a tag. *)
Theorem scan_report_headers {W} (P : Provider W) (wts : Weights)
    (repr_float : float -> string) (tickers : list string) (w : W) :
  (forall x, clean (repr_float x) = true) ->
  Forall (fun tk => clean tk = true) tickers ->
  exists results w',
    scan P wts tickers w = (Ok results, w')
    /\ headers (generate_report repr_float results) = tickers.
Proof.
  intros Hrepr Hclean.
  destruct (scan_total P wts tickers w) as (rs & w' & H & Htk & _).
  exists rs, w'. split; [exact H|].
  pose proof (scan_clean_records P wts tickers w rs w' Hclean H) as Hrs.
  rewrite <- Htk.
  rewrite generate_report_segments, headers_segments
    by (now apply clean_report_bodies).
  rewrite flat_map_app.
  change (flat_map header_pieces title_bodies) with (@nil string). cbn [app].
  clear. induction rs as [|r rs IH]; [reflexivity|].
  cbn [flat_map map]. now rewrite flat_map_app, header_pieces_block, IH.
Qed.

Lemma scan_report_headers_witness :
  exists results w',
    scan sample_provider default_weights etf_list 0%nat = (Ok results, w')
    /\ headers (generate_report repr_2dp results) = etf_list.
Proof.
  apply (scan_report_headers sample_provider default_weights repr_2dp etf_list 0%nat).
  - exact clean_repr_2dp.
  - repeat constructor.
Defined.

(* ================================================================= *)
(** ** The tickers that are scanned *)

